(** * CapacitorHttpLink: request construction and response translation

    A shallow embedding of [src/CapacitorHttpLink.ts]: the link handler built
    by [createHttpLink], the GET serializer [rewriteURIForGET], and the
    translation of the transport promise's settlement into observer calls.

    JavaScript strings are modelled by their UTF-8 bytes ([string]); objects
    used as header maps by [gmap string string]; the effects of one
    subscription (transport calls, observer calls) by explicit traces. *)

From Stdlib Require Import ZArith Ascii String List DecimalString.
From stdpp Require Import base option list strings gmap.
Import ListNotations.

Local Open Scope string_scope.
Local Open Scope Z_scope.

(** ** JavaScript values *)

(** The values that flow through the link: operation variables and
    extensions, transport results and rejection reasons.  [JsNumber z] is a
    Number holding the integer [z]; [JsBigInt] stands for the primitive that
    [JSON.stringify] refuses.  An object is the list of its own enumerable
    properties in insertion order. *)
#[warnings="-register-all"]
Inductive JsValue : Type :=
  | JsUndefined
  | JsNull
  | JsBool (b : bool)
  | JsNumber (z : Z)
  | JsBigInt (z : Z)
  | JsString (s : string)
  | JsArray (items : list JsValue)
  | JsObject (props : list (string * JsValue)).

(** [Record<string, any>] *)
Abbreviation JsRecord := (list (string * JsValue)).

(** ToBoolean. *)
Definition truthy (v : JsValue) : bool :=
  match v with
  | JsUndefined | JsNull => false
  | JsBool b => b
  | JsNumber z | JsBigInt z => negb (z =? 0)
  | JsString s => negb (String.eqb s "")
  | JsArray _ | JsObject _ => true
  end.

(** Truthiness of an optional string property ([undefined] when absent). *)
Definition truthy_str (o : option string) : bool :=
  match o with
  | Some s => negb (String.eqb s "")
  | None => false
  end.

Fixpoint lookup_prop (k : string) (props : JsRecord) : JsValue :=
  match props with
  | [] => JsUndefined
  | (k', v) :: rest => if String.eqb k k' then v else lookup_prop k rest
  end.

(** Property read [v.k].  [None] is the TypeError thrown when [v] is
    [undefined] or [null]; primitives have none of the properties the link
    reads. *)
Definition getProp (v : JsValue) (k : string) : option JsValue :=
  match v with
  | JsUndefined | JsNull => None
  | JsObject props => Some (lookup_prop k props)
  | _ => Some JsUndefined
  end.

(** Strict equality with a string literal, [v === s]. *)
Definition strict_eq_str (v : JsValue) (s : string) : bool :=
  match v with
  | JsString s' => String.eqb s' s
  | _ => false
  end.

(** ** String primitives *)

(** [Array.prototype.join]. *)
Fixpoint join (sep : string) (l : list string) : string :=
  match l with
  | [] => ""
  | [x] => x
  | x :: rest => x ++ sep ++ join sep rest
  end.

(** [s.indexOf(c)] for a one-character needle; [None] is JavaScript's -1. *)
Fixpoint indexOf (c : ascii) (s : string) : option nat :=
  match s with
  | EmptyString => None
  | String a rest =>
      if Ascii.eqb a c then Some O
      else match indexOf c rest with
           | Some n => Some (S n)
           | None => None
           end
  end.

(** [s.substr(start)] *)
Fixpoint substr_from (start : nat) (s : string) : string :=
  match start, s with
  | O, _ => s
  | S n, String _ rest => substr_from n rest
  | S _, EmptyString => EmptyString
  end.

(** [s.substr(0, len)] *)
Fixpoint substr_to (len : nat) (s : string) : string :=
  match len, s with
  | O, _ => EmptyString
  | S n, String a rest => String a (substr_to n rest)
  | S _, EmptyString => EmptyString
  end.

Definition hex_digit (n : nat) : ascii :=
  ascii_of_nat (if Nat.ltb n 10 then 48 + n else 55 + n).

Definition percent_encode (a : ascii) : string :=
  let n := nat_of_ascii a in
  String "%" (String (hex_digit (Nat.div n 16)) (String (hex_digit (Nat.modulo n 16)) "")).

(** The characters [encodeURIComponent] leaves alone:
    A-Z a-z 0-9 - _ . ! ~ * ' ( ) *)
Definition uri_unreserved (a : ascii) : bool :=
  let n := nat_of_ascii a in
  (Nat.leb 65 n && Nat.leb n 90) || (Nat.leb 97 n && Nat.leb n 122)
  || (Nat.leb 48 n && Nat.leb n 57)
  || existsb (Nat.eqb n) [45; 95; 46; 33; 126; 42; 39; 40; 41]%nat.

(** [encodeURIComponent] on the UTF-8 bytes of its argument: every byte
    outside the unreserved set becomes [%XX] in upper-case hex. *)
Fixpoint encodeURIComponent (s : string) : string :=
  match s with
  | EmptyString => EmptyString
  | String a rest =>
      (if uri_unreserved a then String a "" else percent_encode a)
      ++ encodeURIComponent rest
  end.

(** ** JSON.stringify *)

Definition dquote : string := String (ascii_of_nat 34) EmptyString.

(** Escapes of [QuoteJSONString]: the quote, the backslash, the short
    escapes and [\u00xx] for the remaining control characters. *)
Definition json_escape_char (a : ascii) : string :=
  let n := nat_of_ascii a in
  if Nat.eqb n 34 then "\" ++ dquote
  else if Nat.eqb n 92 then "\\"
  else if Nat.eqb n 8 then "\b"
  else if Nat.eqb n 12 then "\f"
  else if Nat.eqb n 10 then "\n"
  else if Nat.eqb n 13 then "\r"
  else if Nat.eqb n 9 then "\t"
  else if Nat.ltb n 32 then
    "\u00" ++ String (ascii_of_nat (48 + Nat.div n 16))
      (String (ascii_of_nat (if Nat.ltb (Nat.modulo n 16) 10
                             then 48 + Nat.modulo n 16
                             else 87 + Nat.modulo n 16)) EmptyString)
  else String a EmptyString.

Fixpoint json_escape (s : string) : string :=
  match s with
  | EmptyString => EmptyString
  | String a rest => json_escape_char a ++ json_escape rest
  end.

Definition json_quote (s : string) : string := dquote ++ json_escape s ++ dquote.

Definition TypeError (msg : string) : JsValue :=
  JsObject [("name", JsString "TypeError"); ("message", JsString msg)].

(** [JSON.stringify(v)].  [inl e] is the exception it throws, [inr None] the
    result [undefined]; an [undefined] array element prints as [null] and an
    [undefined] property is left out. *)
Fixpoint JSON_stringify (v : JsValue) : JsValue + option string :=
  match v with
  | JsUndefined => inr None
  | JsNull => inr (Some "null")
  | JsBool b => inr (Some (if b then "true" else "false"))
  | JsNumber z => inr (Some (NilZero.string_of_int (Z.to_int z)))
  | JsBigInt _ => inl (TypeError "Do not know how to serialize a BigInt")
  | JsString s => inr (Some (json_quote s))
  | JsArray items =>
      let fix elements (l : list JsValue) : JsValue + list string :=
        match l with
        | [] => inr []
        | x :: rest =>
            match JSON_stringify x with
            | inl e => inl e
            | inr o =>
                match elements rest with
                | inl e => inl e
                | inr parts => inr (default "null" o :: parts)
                end
            end
        end in
      match elements items with
      | inl e => inl e
      | inr parts => inr (Some ("[" ++ join "," parts ++ "]"))
      end
  | JsObject props =>
      let fix members (l : JsRecord) : JsValue + list string :=
        match l with
        | [] => inr []
        | (k, x) :: rest =>
            match JSON_stringify x with
            | inl e => inl e
            | inr o =>
                match members rest with
                | inl e => inl e
                | inr parts =>
                    inr (match o with
                         | Some s => (json_quote k ++ ":" ++ s) :: parts
                         | None => parts
                         end)
                end
            end
        end in
      match members props with
      | inl e => inl e
      | inr parts => inr (Some ("{" ++ join "," parts ++ "}"))
      end
  end.

(** ** Data model *)

Inductive OperationTypeNode := query | mutation | subscription.

(** graphql's [DefinitionNode], by its [kind]; an operation definition
    carries its [operation]. *)
Inductive DefinitionNode :=
  | OperationDefinition (operation : OperationTypeNode)
  | FragmentDefinition
  | OtherDefinition (kind : string).

(** A query document: its top-level definitions and the text graphql's
    [print] gives for it. *)
Record DocumentNode := {
  definitions : list DefinitionNode;
  doc_text : string;
}.

Record ClientAwareness := {
  name : option string;
  version : option string;
}.

Record HttpQueryOptions := {
  http_includeQuery : option bool;
  http_includeExtensions : option bool;
}.

(** What [operation.getContext()] returns, as far as the link reads it. *)
Record Context := {
  clientAwareness : option ClientAwareness;
  ctx_headers : option (gmap string string);
  ctx_http : option HttpQueryOptions;
  ctx_fetchOptions : option JsRecord;
  ctx_credentials : option string;
}.

Record Operation := {
  op_query : DocumentNode;
  op_variables : JsRecord;
  op_operationName : option string;
  op_extensions : JsRecord;
  getContext : Context;
}.

Inductive Uri :=
  | UriString (s : string)
  | UriFunction (f : Operation -> string).

(** [Options], the argument of [createHttpLink]. *)
Record Options := {
  uri : option Uri;
  includeExtensions : option bool;
  useGETForQueries : option bool;
  fetchOptions : option JsRecord;
  credentials : option string;
  headers : option (gmap string string);
}.

(** [HttpConfig], one layer of configuration. *)
Record HttpConfig := {
  cfg_http : option HttpQueryOptions;
  cfg_options : option JsRecord;
  cfg_credentials : option string;
  cfg_headers : option (gmap string string);
}.

(** [Body] *)
Record Body := {
  body_query : option string;
  operationName : option string;
  variables : option JsRecord;
  extensions : option JsRecord;
}.

(** What travels as [data]: the value the merged options held under [body],
    or the operation body the POST branch stores there. *)
Inductive Payload :=
  | OfOptions (v : JsValue)
  | OfBody (b : Body).

(** The merged [options] object, as far as the link reads and writes it. *)
Record RequestOptions := {
  method : JsValue;
  opt_headers : gmap string string;
  opt_body : Payload;
}.

(** The error [serializeFetchParameter] throws: an Error object (so always
    truthy) that keeps the original exception under [parseError]. *)
Record ClientParseError := {
  message : string;
  parseError : JsValue;
}.

(** The names the link imports from apollo-link-http-common.  That package is
    not part of the sources, so the link is defined over any implementation
    of this interface. *)
Class HttpCommon := {
  selectURI : Operation -> Uri -> string;
  fallbackHttpConfig : HttpConfig;
  selectHttpOptionsAndBody :
    Operation -> HttpConfig -> HttpConfig -> HttpConfig -> RequestOptions * Body;
  serializeFetchParameter : JsRecord -> string -> ClientParseError + string;
}.

(** The argument of [Http.request]. *)
Record HttpRequest := {
  url : string;
  req_method : JsValue;
  data : Payload;
  req_headers : gmap string string;
}.

(** What an observer can be told. *)
Inductive ErrorValue :=
  | ParseError (e : ClientParseError)
  | Reason (err : JsValue).

Inductive Notification :=
  | Next (value : JsValue)
  | Error (e : ErrorValue)
  | Complete.

(** How the promise returned by [Http.request] settles, if it does. *)
Inductive Settlement :=
  | Fulfilled (result : JsValue)
  | Rejected (err : JsValue)
  | Pending.

(** The two observables the handler returns: [fromError(e)], and the
    [new Observable(observer => ...)] closure, which is determined by the
    request it captured. *)
Inductive Observable :=
  | fromError (e : ClientParseError)
  | newObservable (req : HttpRequest).

(** Object spread [{...a, ...b}]: the keys of [b] win. *)
Definition spread (a b : gmap string string) : gmap string string := b ∪ a.

(** Spreading a property that may be [undefined]. *)
Definition props_of (o : option (gmap string string)) : gmap string string :=
  default ∅ o.

(** ** The builder monad of the GET serializer

    [rewriteURIForGET] pushes onto the array [queryParams] and leaves early
    with [{ parseError }] when a serialization throws.  It is written in a
    state-and-error monad whose state is that array together with the log
    of the labels handed to [serializeFetchParameter]. *)

Record GetState := {
  queryParams : list string;
  serialized : list string;
}.

Definition Build (A : Type) : Type := GetState -> GetState * (ClientParseError + A).

#[global] Instance Build_ret : MRet Build := fun A a st => (st, inr a).

#[global] Instance Build_bind : MBind Build := fun A B k m st =>
  match m st with
  | (st', inr a) => k a st'
  | (st', inl e) => (st', inl e)
  end.

(** ** The link *)

Section Link.
Context `{HttpCommon}.

(** *** GET serialization *)

Definition addQueryParam (key value : string) : Build unit :=
  fun st =>
    ({| queryParams := queryParams st ++ [key ++ "=" ++ encodeURIComponent value];
        serialized := serialized st |}, inr tt).

(** [try { s = serializeFetchParameter(p, label) } catch (parseError)
    { return { parseError } }] *)
Definition trySerialize (p : JsRecord) (label : string) : Build string :=
  fun st =>
    ({| queryParams := queryParams st; serialized := serialized st ++ [label] |},
     serializeFetchParameter p label).

Definition getQueryParams : Build (list string) :=
  fun st => (st, inr (queryParams st)).

Definition reconstructURI (chosenURI : string) (params : list string) : string :=
  let fragmentStart := indexOf "#" chosenURI in
  let '(fragment, preFragment) :=
    match fragmentStart with
    | Some n => (substr_from n chosenURI, substr_to n chosenURI)
    | None => (EmptyString, chosenURI)
    end in
  let queryParamsPrefix :=
    match indexOf "?" preFragment with None => "?" | Some _ => "&" end in
  preFragment ++ queryParamsPrefix ++ join "&" params ++ fragment.

Definition rewriteURIForGET_run (chosenURI : string) (body : Body)
  : GetState * (ClientParseError + string) :=
  ((match body_query body with
    | Some q => addQueryParam "query" q
    | None => mret tt
    end);;
   (match operationName body with
    | Some n => if truthy (JsString n) then addQueryParam "operationName" n else mret tt
    | None => mret tt
    end);;
   (match variables body with
    | Some v =>
        serializedVariables ← trySerialize v "Variables map";
        addQueryParam "variables" serializedVariables
    | None => mret tt
    end);;
   (match extensions body with
    | Some x =>
        serializedExtensions ← trySerialize x "Extensions map";
        addQueryParam "extensions" serializedExtensions
    | None => mret tt
    end);;
   params ← getQueryParams;
   mret (reconstructURI chosenURI params))
    {| queryParams := []; serialized := [] |}.

(** The value the function returns: [inr newURI] for [{ newURI }],
    [inl parseError] for [{ parseError }]. *)
Definition rewriteURIForGET (chosenURI : string) (body : Body)
  : ClientParseError + string :=
  snd (rewriteURIForGET_run chosenURI body).

(** *** The handler *)

Definition linkConfig (linkOptions : Options) : HttpConfig :=
  {| cfg_http := Some {| http_includeQuery := None;
                         http_includeExtensions := includeExtensions linkOptions |};
     cfg_options := fetchOptions linkOptions;
     cfg_credentials := credentials linkOptions;
     cfg_headers := headers linkOptions |}.

Definition clientAwarenessHeaders (context : Context) : gmap string string :=
  match clientAwareness context with
  | Some ca =>
      let h : gmap string string := ∅ in
      let h :=
        match name ca with
        | Some n => if truthy (JsString n) then <["apollographql-client-name" := n]> h else h
        | None => h
        end in
      match version ca with
      | Some v => if truthy (JsString v) then <["apollographql-client-version" := v]> h else h
      | None => h
      end
  | None => ∅
  end.

Definition contextHeaders (context : Context) : gmap string string :=
  spread (clientAwarenessHeaders context) (props_of (ctx_headers context)).

Definition contextConfig (context : Context) : HttpConfig :=
  {| cfg_http := ctx_http context;
     cfg_options := ctx_fetchOptions context;
     cfg_credentials := ctx_credentials context;
     cfg_headers := Some (contextHeaders context) |}.

Definition definitionIsMutation (d : DefinitionNode) : bool :=
  match d with
  | OperationDefinition mutation => true
  | _ => false
  end.

(** The guard of the assignment [options.method = 'GET']. *)
Definition forcesGET (linkOptions : Options) (operation : Operation) : bool :=
  default false (useGETForQueries linkOptions)
  && negb (existsb definitionIsMutation (definitions (op_query operation))).

(** The merged options and body as [selectHttpOptionsAndBody] returns them. *)
Definition merged (linkOptions : Options) (operation : Operation)
  : RequestOptions * Body :=
  selectHttpOptionsAndBody operation fallbackHttpConfig
    (linkConfig linkOptions) (contextConfig (getContext operation)).

Definition set_method (m : JsValue) (options : RequestOptions) : RequestOptions :=
  {| method := m; opt_headers := opt_headers options; opt_body := opt_body options |}.

Definition set_body (b : Payload) (options : RequestOptions) : RequestOptions :=
  {| method := method options; opt_headers := opt_headers options; opt_body := b |}.

(** [options] once the method has been decided. *)
Definition chosenOptions (linkOptions : Options) (operation : Operation)
  : RequestOptions :=
  let options := fst (merged linkOptions operation) in
  if forcesGET linkOptions operation then set_method (JsString "GET") options
  else options.

(** The object handed to [Http.request]. *)
Definition httpRequest (chosenURI : string) (options : RequestOptions) : HttpRequest :=
  {| url := chosenURI;
     req_method := method options;
     data := opt_body options;
     req_headers := <["Content-Type" := "application/json"]> (opt_headers options) |}.

(** [createHttpLink(linkOptions)] as the function of the operation that
    the returned link runs. *)
Definition createHttpLink (linkOptions : Options) (operation : Operation)
  : Observable :=
  let chosenURI :=
    selectURI operation (default (UriString "/graphql") (uri linkOptions)) in
  let body := snd (merged linkOptions operation) in
  let options := chosenOptions linkOptions operation in
  if strict_eq_str (method options) "GET" then
    match rewriteURIForGET chosenURI body with
    | inl parseError => fromError parseError
    | inr newURI => newObservable (httpRequest newURI options)
    end
  else newObservable (httpRequest chosenURI (set_body (OfBody body) options)).

(** *** Settlement of the transport promise *)

(** [.then(result => { observer.next(result.data); observer.complete();
    return result })]: the observer calls made, or the TypeError thrown when
    [result] has no properties to read. *)
Definition onFulfilled (result : JsValue) : JsValue + list Notification :=
  match getProp result "data" with
  | Some d => inr [Next d; Complete]
  | None =>
      inl (TypeError ("Cannot read properties of "
                      ++ (match result with JsNull => "null" | _ => "undefined" end)
                      ++ " (reading 'data')"))
  end.

(** [err.result && err.result.errors && err.result.data] *)
Definition carriesResult (err : JsValue) : bool :=
  match getProp err "result" with
  | Some r =>
      truthy r
      && truthy (default JsUndefined (getProp r "errors"))
      && truthy (default JsUndefined (getProp r "data"))
  | None => false
  end.

(** [.catch(err => ...)].  Reading [err.name] of [undefined] or [null]
    throws inside the handler and no observer call is made. *)
Definition onRejected (err : JsValue) : list Notification :=
  match getProp err "name" with
  | None => []
  | Some n =>
      if strict_eq_str n "AbortError" then []
      else
        (if carriesResult err
         then [Next (default JsUndefined (getProp err "result"))]
         else [])
        ++ [Error (Reason err)]
  end.

(** [promise.then(onFulfilled).catch(onRejected)] *)
Definition settle (s : Settlement) : list Notification :=
  match s with
  | Fulfilled result =>
      match onFulfilled result with
      | inr calls => calls
      | inl thrown => onRejected thrown
      end
  | Rejected err => onRejected err
  | Pending => []
  end.

(** What one subscription does: the calls of [Http.request], and the
    calls made on the observer. *)
Record Trace := {
  requests : list HttpRequest;
  emitted : list Notification;
}.

Definition subscribe (transport : HttpRequest -> Settlement) (o : Observable) : Trace :=
  match o with
  | fromError e => {| requests := []; emitted := [Error (ParseError e)] |}
  | newObservable req => {| requests := [req]; emitted := settle (transport req) |}
  end.

(** One operation run through the link against a transport. *)
Definition execute (linkOptions : Options) (transport : HttpRequest -> Settlement)
    (operation : Operation) : Trace :=
  subscribe transport (createHttpLink linkOptions operation).

End Link.

(** ** A model of apollo-link-http-common

    Used wherever a statement needs the imported functions to compute:
    the examples of the specification and the concrete runs below. *)

(** Modelled from the spec: [selectURI] is imported from
    apollo-link-http-common, which is not among the sources.  Section 4.1,
    step 1: a function is called with the operation, a string is used as it
    stands. *)
Definition model_selectURI (operation : Operation) (fallbackURI : Uri) : string :=
  match fallbackURI with
  | UriString s => s
  | UriFunction f => f operation
  end.

(** Modelled from the spec: [fallbackHttpConfig] is imported from
    apollo-link-http-common.  The built-in defaults of sections 3 and 4.1: the
    method is POST, extensions are left out, the query is sent. *)
Definition model_fallbackHttpConfig : HttpConfig :=
  {| cfg_http := Some {| http_includeQuery := Some true;
                         http_includeExtensions := Some false |};
     cfg_options := Some [("method", JsString "POST")];
     cfg_credentials := None;
     cfg_headers := None |}.

(** The value of the highest layer that defines it (layers in increasing
    precedence). *)
Definition last_defined {A} (layers : list (option A)) : option A :=
  foldl (fun acc o => match o with Some a => Some a | None => acc end) None layers.

(** Modelled from the spec: [selectHttpOptionsAndBody] is imported from
    apollo-link-http-common.  Section 3: the layers are folded in increasing
    precedence; headers are overridden key by key, the transport options are
    those of the highest layer that defines them; the body carries the
    printed query, the operation name and the variables, and the extensions
    only when [includeExtensions] is set. *)
Definition model_selectHttpOptionsAndBody (operation : Operation)
    (fallbackConfig linkLayer contextLayer : HttpConfig) : RequestOptions * Body :=
  let layers := [fallbackConfig; linkLayer; contextLayer] in
  let transport := default [] (last_defined (map cfg_options layers)) in
  let merged_headers :=
    foldl (fun acc c => spread acc (props_of (cfg_headers c))) ∅ layers in
  let flag (f : HttpQueryOptions -> option bool) :=
    default false (last_defined (map (fun c => cfg_http c ≫= f) layers)) in
  ({| method := lookup_prop "method" transport;
      opt_headers := merged_headers;
      opt_body := OfOptions (lookup_prop "body" transport) |},
   {| body_query :=
        if flag http_includeQuery then Some (doc_text (op_query operation)) else None;
      operationName := op_operationName operation;
      variables := Some (op_variables operation);
      extensions :=
        if flag http_includeExtensions then Some (op_extensions operation) else None |}).

(** [e.message] of a thrown value. *)
Definition message_of (e : JsValue) : string :=
  match getProp e "message" with
  | Some (JsString m) => m
  | _ => "undefined"
  end.

(** Modelled from the spec: [serializeFetchParameter] is imported from
    apollo-link-http-common.  Section 4.2: the value is JSON-serialized to a
    string, and a value that cannot be serialized makes the call fail; the
    error names the parameter by its label and keeps the cause. *)
Definition model_serializeFetchParameter (p : JsRecord) (label : string)
  : ClientParseError + string :=
  match JSON_stringify (JsObject p) with
  | inr serialized => inr (default "undefined" serialized)
  | inl e =>
      inl {| message :=
               "Network request failed. " ++ label ++ " is not serializable: "
               ++ message_of e;
             parseError := e |}
  end.

Definition apollo_link_http_common : HttpCommon := {|
  selectURI := model_selectURI;
  fallbackHttpConfig := model_fallbackHttpConfig;
  selectHttpOptionsAndBody := model_selectHttpOptionsAndBody;
  serializeFetchParameter := model_serializeFetchParameter;
|}.

(** ** Vocabulary of the statements *)

(** The query parameter [key=value], when there is a value. *)
Definition param (key : string) (value : option string) : list string :=
  match value with
  | Some v => [key ++ "=" ++ encodeURIComponent v]
  | None => []
  end.

(** A string property that is present and not the empty string. *)
Definition nonempty (o : option string) : option string :=
  match o with
  | Some s => if String.eqb s "" then None else Some s
  | None => None
  end.

(** [field] is absent and [o] is [None], or it is present, serializes
    under [label], and [o] is the serialized string. *)
Definition serializesTo `{HttpCommon} (label : string) (field : option JsRecord)
    (o : option string) : Prop :=
  match field with
  | Some v => exists s, serializeFetchParameter v label = inr s /\ o = Some s
  | None => o = None
  end.

(** Serializing the variables of [body] throws [e]. *)
Definition variablesFail `{HttpCommon} (body : Body) (e : ClientParseError) : Prop :=
  exists v, variables body = Some v /\ serializeFetchParameter v "Variables map" = inl e.

(** The variables of [body] are absent or serialize to [sv], and
    serializing its extensions throws [e]. *)
Definition extensionsFail `{HttpCommon} (body : Body) (sv : option string)
    (e : ClientParseError) : Prop :=
  serializesTo "Variables map" (variables body) sv
  /\ exists x, extensions body = Some x /\ serializeFetchParameter x "Extensions map" = inl e.

(** The merge lets the headers of the context layer prevail, key by key
    (section 3 of the specification). *)
Definition contextHeadersPrevail `{HttpCommon} : Prop :=
  forall operation fallbackConfig linkLayer contextLayer k v,
    props_of (cfg_headers contextLayer) !! k = Some v ->
    opt_headers (fst (selectHttpOptionsAndBody operation fallbackConfig
                        linkLayer contextLayer)) !! k = Some v.

(** ** Concrete inputs *)

Definition noContext : Context :=
  {| clientAwareness := None; ctx_headers := None;
     ctx_http := None; ctx_fetchOptions := None; ctx_credentials := None |}.

Definition withAwareness (n v : string) (h : gmap string string) : Context :=
  {| clientAwareness := Some {| name := Some n; version := Some v |};
     ctx_headers := Some h;
     ctx_http := None; ctx_fetchOptions := None; ctx_credentials := None |}.

(** An operation with the document [{a}] and the given definitions,
    variables and context. *)
Definition operationOf (defs : list DefinitionNode) (vars : JsRecord)
    (context : Context) : Operation :=
  {| op_query := {| definitions := defs; doc_text := "{a}" |};
     op_variables := vars;
     op_operationName := None;
     op_extensions := [];
     getContext := context |}.

Definition linkWith (useGET : option bool) (h : option (gmap string string)) : Options :=
  {| uri := None; includeExtensions := None; useGETForQueries := useGET;
     fetchOptions := None; credentials := None; headers := h |}.

Definition bodyOf (q n : option string) (v x : option JsRecord) : Body :=
  {| body_query := q; operationName := n; variables := v; extensions := x |}.

(** A rejection reason with the given [name] and [result]. *)
Definition errorObject (n : string) (result : JsValue) : JsValue :=
  JsObject [("name", JsString n); ("result", result)].

(** A response body with [errors] and partial [data]. *)
Definition partialResult : JsValue :=
  JsObject [("errors", JsArray [JsObject [("message", JsString "boom")]]);
            ("data", JsObject [("foo", JsNumber 1)])].

Definition getLink : Options := linkWith (Some true) None.

Definition plainLink : Options := linkWith None None.

Definition queryOperation : Operation :=
  operationOf [OperationDefinition query; FragmentDefinition] [("x", JsNumber 1)] noContext.

Definition mutationOperation : Operation :=
  operationOf [OperationDefinition query; OperationDefinition mutation] [] noContext.

(** Variables that [JSON.stringify] refuses. *)
Definition bigintOperation : Operation :=
  operationOf [OperationDefinition query] [("x", JsBigInt 1)] noContext.

Definition bigintError : ClientParseError :=
  {| message := "Network request failed. Variables map is not serializable: "
                ++ "Do not know how to serialize a BigInt";
     parseError := TypeError "Do not know how to serialize a BigInt" |}.

Definition awareOperation : Operation :=
  operationOf [OperationDefinition query] []
    (withAwareness "app" "1.0" {[ "apollographql-client-name" := "override" ]}).

(** A [clientAwareness] whose name is the empty string. *)
Definition namelessOperation : Operation :=
  operationOf [OperationDefinition query] [] (withAwareness "" "1.0" ∅).

(** Link and context both supply a [Content-Type] of their own. *)
Definition typedLink : Options :=
  linkWith None (Some {[ "Content-Type" := "text/plain" ]}).

Definition typedOperation : Operation :=
  operationOf [OperationDefinition mutation] []
    {| clientAwareness := None;
       ctx_headers := Some {[ "Content-Type" := "text/html" ]};
       ctx_http := None; ctx_fetchOptions := None; ctx_credentials := None |}.

(** A link that sets the content type under the lower-case key. *)
Definition lowerCaseLink : Options :=
  linkWith None (Some {[ "content-type" := "text/plain" ]}).

Definition fooResult : JsValue :=
  JsObject [("data", JsObject [("foo", JsNumber 1)])].

(** ** Vocabulary of the further properties *)

(** The two pieces into which [rewriteURIForGET] cuts a URI: the text from
    the first [#] on, and the text before it. *)
Definition fragmentOf (u : string) : string :=
  match indexOf "#" u with
  | Some n => substr_from n u
  | None => EmptyString
  end.

Definition preFragmentOf (u : string) : string :=
  match indexOf "#" u with
  | Some n => substr_to n u
  | None => u
  end.

(** The prefix of the parameter block for a given text before the
    fragment. *)
Definition prefixFor (preFragment : string) : string :=
  match indexOf "?" preFragment with None => "?" | Some _ => "&" end.

(** [Error] and [Complete] end a stream. *)
Definition terminal (n : Notification) : bool :=
  match n with
  | Next _ => false
  | Error _ | Complete => true
  end.

(** The observer contract: nothing is told after [Error] or [Complete]. *)
Fixpoint followsContract (l : list Notification) : bool :=
  match l with
  | [] => true
  | n :: rest =>
      if terminal n then match rest with [] => true | _ => false end
      else followsContract rest
  end.

(** The label under which a present field is handed to the serializer. *)
Definition labelOf (label : string) (field : option JsRecord) : list string :=
  match field with
  | Some _ => [label]
  | None => []
  end.

(** A rejection whose result has errors but [null] for data. *)
Definition dataNullError : JsValue :=
  errorObject "Error"
    (JsObject [("errors", JsArray [JsObject [("message", JsString "boom")]]);
               ("data", JsNull)]).

(** A link whose fetch options spell the method in lower case. *)
Definition lowerGetLink : Options :=
  {| uri := None; includeExtensions := None; useGETForQueries := None;
     fetchOptions := Some [("method", JsString "get")];
     credentials := None; headers := None |}.

(** ** Tactics for the builder *)

Ltac unfold_build :=
  unfold rewriteURIForGET, rewriteURIForGET_run, mbind, mret, Build_bind, Build_ret,
    addQueryParam, trySerialize, getQueryParams, param, nonempty;
  cbn [queryParams serialized fst snd app truthy negb
       body_query operationName variables extensions].

(** Splits on the fields of the body and on each serialization it runs;
    the facts about the run must be in the goal. *)
Ltac split_body body :=
  destruct body as [[q|] [n|] [v|] [x|]]; unfold_build;
  repeat match goal with
    | |- context [String.eqb ?s ""] => destruct (String.eqb s "") eqn:?
    | |- context [serializeFetchParameter ?p ?l] =>
        destruct (serializeFetchParameter p l) eqn:?
    end;
  cbn [queryParams serialized fst snd app negb].

(** ** Strings *)

Lemma append_cons (a : ascii) (s t : string) : String a s ++ t = String a (s ++ t).
Proof. reflexivity. Qed.

Lemma append_nil_r (s : string) : s ++ "" = s.
Proof.
  induction s as [|a s IH]; [reflexivity|].
  now rewrite append_cons, IH.
Qed.

Lemma append_assoc (a b c : string) : (a ++ b) ++ c = a ++ (b ++ c).
Proof.
  induction a as [|x a IH]; [reflexivity|].
  now rewrite !append_cons, IH.
Qed.

(** Cutting at the first occurrence of [c]: the two pieces rebuild the
    string, the first holds no [c], the second starts with it. *)
Lemma indexOf_split (c : ascii) (s : string) (n : nat) :
  indexOf c s = Some n ->
  s = substr_to n s ++ substr_from n s
  /\ indexOf c (substr_to n s) = None
  /\ exists rest, substr_from n s = String c rest.
Proof.
  revert n. induction s as [|a s IH]; intros n Hn; simpl in Hn.
  - discriminate.
  - destruct (Ascii.eqb a c) eqn:Eac.
    + injection Hn as <-. apply Ascii.eqb_eq in Eac. subst a.
      simpl. repeat split; eauto.
    + destruct (indexOf c s) as [m|] eqn:Em; [|discriminate].
      injection Hn as <-. destruct (IH m eq_refl) as (Hs & Hpre & rest & Hrest).
      simpl. rewrite append_cons, Eac, Hpre, <- Hs. repeat split; eauto.
Qed.

(** ** GET serialization *)

Section Serialization.
Context `{HttpCommon}.

(** When a URI comes back, it was rebuilt from the parameters pushed. *)
Lemma rewriteURIForGET_newURI (chosenURI : string) (body : Body) (newURI : string) :
  rewriteURIForGET chosenURI body = inr newURI ->
  newURI = reconstructURI chosenURI
             (queryParams (fst (rewriteURIForGET_run chosenURI body))).
Proof.
  split_body body; congruence.
Qed.

(** The shape of a rebuilt URI. *)
Lemma reconstructURI_shape (chosenURI : string) (params : list string) :
  exists preFragment fragment,
    chosenURI = preFragment ++ fragment
    /\ indexOf "#" preFragment = None
    /\ (match indexOf "#" chosenURI with
        | Some _ => exists rest, fragment = String "#" rest
        | None => fragment = EmptyString
        end)
    /\ reconstructURI chosenURI params
       = preFragment
         ++ (match indexOf "?" preFragment with None => "?" | Some _ => "&" end)
         ++ join "&" params ++ fragment.
Proof.
  unfold reconstructURI.
  destruct (indexOf "#" chosenURI) as [n|] eqn:Hhash.
  - destruct (indexOf_split _ _ _ Hhash) as (Hs & Hpre & Hfrag).
    exists (substr_to n chosenURI), (substr_from n chosenURI). auto.
  - exists chosenURI, EmptyString. rewrite append_nil_r. auto.
Qed.

End Serialization.

(** C7: for every base URI, GET serialization keeps an existing fragment
    (from the first [#]) at the end of the rewritten URI, prefixes the
    parameter block with [?] when the part before the fragment holds no [?]
    and with [&] otherwise, and joins the parameters with [&]; the base
    [https://h/g#frag] with the query [{a}] gives
    [https://h/g?query=%7Ba%7D#frag], and a base that already ends in
    [?existing=1] gets its parameters after an [&]. *)
Theorem rewriteURIForGET_preserves_fragment :
  (forall (H : HttpCommon) (chosenURI : string) (body : Body) (newURI : string),
      rewriteURIForGET chosenURI body = inr newURI ->
      exists preFragment fragment,
        chosenURI = preFragment ++ fragment
        /\ indexOf "#" preFragment = None
        /\ (match indexOf "#" chosenURI with
            | Some _ => exists rest, fragment = String "#" rest
            | None => fragment = EmptyString
            end)
        /\ newURI
           = preFragment
             ++ (match indexOf "?" preFragment with None => "?" | Some _ => "&" end)
             ++ join "&" (queryParams (fst (rewriteURIForGET_run chosenURI body)))
             ++ fragment)
  /\ (forall H : HttpCommon,
        rewriteURIForGET "https://h/g#frag" (bodyOf (Some "{a}") None None None)
        = inr "https://h/g?query=%7Ba%7D#frag")
  /\ (forall H : HttpCommon,
        rewriteURIForGET "https://h/g?existing=1" (bodyOf (Some "{a}") None None None)
        = inr "https://h/g?existing=1&query=%7Ba%7D").
Proof.
  split; [|split].
  - intros H chosenURI body newURI Hget.
    apply rewriteURIForGET_newURI in Hget. subst newURI.
    destruct (reconstructURI_shape chosenURI
                (queryParams (fst (rewriteURIForGET_run chosenURI body))))
      as (pre & frag & Huri & Hpre & Hfrag & Hnew).
    exists pre, frag. auto.
  - intros H. reflexivity.
  - intros H. reflexivity.
Qed.

(** The base [https://h/g#frag#x] with an operation name: the fragment
    starts at the first [#] and the parameters are joined with [&]. *)
Lemma rewriteURIForGET_preserves_fragment_witness :
  @rewriteURIForGET apollo_link_http_common "https://h/g#frag#x"
     (bodyOf (Some "{a}") (Some "Q") None None)
  = inr "https://h/g?query=%7Ba%7D&operationName=Q#frag#x"
  /\ exists preFragment fragment,
      "https://h/g#frag#x" = preFragment ++ fragment
      /\ indexOf "#" preFragment = None
      /\ (match indexOf "#" "https://h/g#frag#x" with
          | Some _ => exists rest, fragment = String "#" rest
          | None => fragment = EmptyString
          end)
      /\ "https://h/g?query=%7Ba%7D&operationName=Q#frag#x"
         = preFragment
           ++ (match indexOf "?" preFragment with None => "?" | Some _ => "&" end)
           ++ join "&" (queryParams (fst (@rewriteURIForGET_run apollo_link_http_common
                                             "https://h/g#frag#x"
                                             (bodyOf (Some "{a}") (Some "Q") None None))))
           ++ fragment.
Proof.
  split; [reflexivity|].
  apply (proj1 rewriteURIForGET_preserves_fragment apollo_link_http_common).
  reflexivity.
Defined.

(** C2, as the code has it: whenever GET serialization returns a URI, the
    parameters it appended are, in this order, [query] when the body has
    one, [operationName] when it is present and not the empty string,
    [variables] and [extensions] when present; [query] and [operationName]
    are URL-encoded as they stand, [variables] and [extensions] are each
    serialized to a string first and that string is URL-encoded; the body
    [{query: {a}, variables: {x: 1}}] against a base URI without [#] and [?]
    gives that URI followed by
    [?query=%7Ba%7D&variables=%7B%22x%22%3A1%7D]. *)
Theorem rewriteURIForGET_parameters :
  (forall (H : HttpCommon) (chosenURI : string) (body : Body) (newURI : string),
      rewriteURIForGET chosenURI body = inr newURI ->
      exists sv se,
        serializesTo "Variables map" (variables body) sv
        /\ serializesTo "Extensions map" (extensions body) se
        /\ queryParams (fst (rewriteURIForGET_run chosenURI body))
           = (param "query" (body_query body)
              ++ param "operationName" (nonempty (operationName body))
              ++ param "variables" sv
              ++ param "extensions" se)%list
        /\ newURI
           = reconstructURI chosenURI
               (param "query" (body_query body)
                ++ param "operationName" (nonempty (operationName body))
                ++ param "variables" sv
                ++ param "extensions" se)%list)
  /\ (forall chosenURI : string,
        indexOf "#" chosenURI = None ->
        indexOf "?" chosenURI = None ->
        @rewriteURIForGET apollo_link_http_common chosenURI
          (bodyOf (Some "{a}") None (Some [("x", JsNumber 1)]) None)
        = inr (chosenURI ++ "?query=%7Ba%7D&variables=%7B%22x%22%3A1%7D")).
Proof.
  split.
  - intros H chosenURI body newURI.
    unfold serializesTo.
    split_body body; intros Hget; try discriminate;
      injection Hget as <-;
      repeat match goal with
        | |- context [serializeFetchParameter ?p ?l] =>
            match goal with E : serializeFetchParameter p l = _ |- _ => rewrite E end
        end;
      (do 2 eexists); (repeat split); eauto.
  - intros chosenURI Hhash Hquery.
    transitivity (inr (A := ClientParseError)
                    (reconstructURI chosenURI
                       ["query=%7Ba%7D"; "variables=%7B%22x%22%3A1%7D"]));
      [reflexivity|].
    unfold reconstructURI. rewrite Hhash, Hquery.
    now rewrite append_nil_r.
Qed.

(** The same body with an operation name and variables, run on the model
    of the imported functions. *)
Lemma rewriteURIForGET_parameters_witness :
  @rewriteURIForGET apollo_link_http_common "/graphql"
     (bodyOf (Some "{a}") (Some "Q") (Some [("x", JsNumber 1)]) None)
  = inr "/graphql?query=%7Ba%7D&operationName=Q&variables=%7B%22x%22%3A1%7D"
  /\ exists sv se,
      @serializesTo apollo_link_http_common "Variables map"
        (Some [("x", JsNumber 1)]) sv
      /\ @serializesTo apollo_link_http_common "Extensions map" None se
      /\ queryParams (fst (@rewriteURIForGET_run apollo_link_http_common "/graphql"
                             (bodyOf (Some "{a}") (Some "Q")
                                (Some [("x", JsNumber 1)]) None)))
         = (param "query" (Some "{a}") ++ param "operationName" (nonempty (Some "Q"))
            ++ param "variables" sv ++ param "extensions" se)%list
      /\ "/graphql?query=%7Ba%7D&operationName=Q&variables=%7B%22x%22%3A1%7D"
         = reconstructURI "/graphql"
             (param "query" (Some "{a}") ++ param "operationName" (nonempty (Some "Q"))
              ++ param "variables" sv ++ param "extensions" se)%list.
Proof.
  split; [reflexivity|].
  apply (proj1 rewriteURIForGET_parameters apollo_link_http_common "/graphql"
           (bodyOf (Some "{a}") (Some "Q") (Some [("x", JsNumber 1)]) None)).
  reflexivity.
Defined.

(** C2 as stated fails: a body whose [operationName] is the empty string
    has that parameter, yet only [query] is appended. *)
Lemma rewriteURIForGET_drops_empty_operationName :
  operationName (bodyOf (Some "{a}") (Some "") None None) = Some ""
  /\ @rewriteURIForGET apollo_link_http_common "/graphql"
       (bodyOf (Some "{a}") (Some "") None None)
     = inr "/graphql?query=%7Ba%7D"
  /\ queryParams (fst (@rewriteURIForGET_run apollo_link_http_common "/graphql"
                         (bodyOf (Some "{a}") (Some "") None None)))
     = ["query=%7Ba%7D"].
Proof. repeat split. Qed.

(** ** The handler *)

(** The model of the merge lets the context layer's headers prevail. *)
Lemma model_contextHeadersPrevail : @contextHeadersPrevail apollo_link_http_common.
Proof.
  intros operation fallbackConfig linkLayer contextLayer k v Hk.
  cbn. unfold spread. now apply lookup_union_Some_l.
Qed.

Section Handler.
Context `{HttpCommon}.

Lemma some_definitionIsMutation (defs : list DefinitionNode) :
  existsb definitionIsMutation defs = true <-> In (OperationDefinition mutation) defs.
Proof.
  rewrite existsb_exists. split.
  - intros (d & Hin & Hd). destruct d as [[]| |]; try discriminate. exact Hin.
  - intros Hin. exists (OperationDefinition mutation). split; [exact Hin | reflexivity].
Qed.

(** The request of the observable the handler returns carries the chosen
    method and the merged headers under the forced content type. *)
Lemma createHttpLink_request (linkOptions : Options) (operation : Operation)
    (req : HttpRequest) :
  createHttpLink linkOptions operation = newObservable req ->
  req_method req = method (chosenOptions linkOptions operation)
  /\ req_headers req
     = <["Content-Type" := "application/json"]>
         (opt_headers (chosenOptions linkOptions operation)).
Proof.
  unfold createHttpLink.
  destruct (strict_eq_str _ _).
  - destruct (rewriteURIForGET _ _); [discriminate|].
    intros [= <-]. split; reflexivity.
  - intros [= <-]. split; reflexivity.
Qed.

Lemma requests_execute (linkOptions : Options) (transport : HttpRequest -> Settlement)
    (operation : Operation) (req : HttpRequest) :
  In req (requests (execute linkOptions transport operation)) <->
  createHttpLink linkOptions operation = newObservable req.
Proof.
  unfold execute, subscribe.
  destruct (createHttpLink linkOptions operation) as [e|r]; cbn.
  - split; [tauto | discriminate].
  - split; [intros [->|[]]; reflexivity | intros [= ->]; now left].
Qed.

Lemma execute_newObservable (linkOptions : Options)
    (transport : HttpRequest -> Settlement) (operation : Operation) (req : HttpRequest) :
  createHttpLink linkOptions operation = newObservable req ->
  execute linkOptions transport operation
  = {| requests := [req]; emitted := settle (transport req) |}.
Proof. unfold execute. now intros ->. Qed.

(** A serialization that throws is what [rewriteURIForGET] returns. *)
Lemma rewriteURIForGET_fails (chosenURI : string) (body : Body)
    (sv : option string) (e : ClientParseError) :
  variablesFail body e \/ extensionsFail body sv e ->
  rewriteURIForGET chosenURI body = inl e.
Proof.
  unfold variablesFail, extensionsFail, serializesTo.
  split_body body;
    (intros [(v' & Hv & Hfail) | (Hsv & x' & Hx & Hfail)]; cbn in *;
     try destruct Hsv as (s' & Hs & _); simplify_eq; congruence).
Qed.

End Handler.

Section Claims.
Context `{HttpCommon}.
Implicit Types (linkOptions : Options) (operation : Operation)
  (transport : HttpRequest -> Settlement) (req : HttpRequest).

(** C1: when [useGETForQueries] is true, the assignment of GET is made
    exactly when no top-level definition of the operation is a mutation;
    then the method is GET, and when some definition is a mutation the
    options stay what the merge of the configuration layers returned.  The
    request that is issued carries the method so chosen. *)
Theorem useGETForQueries_forces_GET_without_mutation linkOptions operation :
  useGETForQueries linkOptions = Some true ->
  (forcesGET linkOptions operation = true
   <-> ~ In (OperationDefinition mutation) (definitions (op_query operation)))
  /\ (~ In (OperationDefinition mutation) (definitions (op_query operation)) ->
      method (chosenOptions linkOptions operation) = JsString "GET")
  /\ (In (OperationDefinition mutation) (definitions (op_query operation)) ->
      chosenOptions linkOptions operation = fst (merged linkOptions operation))
  /\ (forall req,
        createHttpLink linkOptions operation = newObservable req ->
        req_method req = method (chosenOptions linkOptions operation)).
Proof.
  intros Huse.
  assert (Hguard : forcesGET linkOptions operation = true
                   <-> ~ In (OperationDefinition mutation)
                          (definitions (op_query operation))).
  { unfold forcesGET. rewrite Huse. cbn [default andb].
    rewrite <- some_definitionIsMutation.
    destruct (existsb _ _); cbn; split; congruence. }
  split; [exact Hguard|]. split; [|split].
  - intros Hno. apply Hguard in Hno. unfold chosenOptions. now rewrite Hno.
  - intros Hmut. unfold chosenOptions.
    destruct (forcesGET linkOptions operation); [|reflexivity].
    exfalso. exact (proj1 Hguard eq_refl Hmut).
  - intros req Hreq. now apply createHttpLink_request in Hreq.
Qed.

(** C3: when the method is GET and serializing the variables, or else the
    extensions, throws [e], the handler returns [fromError(e)]: the stream
    is the single notification [Error(e)] and [Http.request] is not called.
    When the variables throw, only [query] and [operationName] have been
    pushed and the extensions were never handed to the serializer; when the
    extensions throw, no [extensions] parameter has been pushed. *)
Theorem serialization_failure_issues_no_request linkOptions transport operation
    (sv : option string) (e : ClientParseError) :
  method (chosenOptions linkOptions operation) = JsString "GET" ->
  variablesFail (snd (merged linkOptions operation)) e
  \/ extensionsFail (snd (merged linkOptions operation)) sv e ->
  createHttpLink linkOptions operation = fromError e
  /\ execute linkOptions transport operation
     = {| requests := []; emitted := [Error (ParseError e)] |}
  /\ (forall chosenURI body,
        variablesFail body e ->
        fst (rewriteURIForGET_run chosenURI body)
        = {| queryParams := param "query" (body_query body)
                            ++ param "operationName" (nonempty (operationName body));
             serialized := ["Variables map"] |})
  /\ (forall chosenURI body,
        extensionsFail body sv e ->
        queryParams (fst (rewriteURIForGET_run chosenURI body))
        = (param "query" (body_query body)
           ++ param "operationName" (nonempty (operationName body))
           ++ param "variables" sv)%list).
Proof.
  intros Hget Hfail.
  assert (Hlink : createHttpLink linkOptions operation = fromError e).
  { unfold createHttpLink. rewrite Hget. cbn [strict_eq_str String.eqb].
    change (String.eqb "GET" "GET") with true. cbn iota.
    now rewrite (rewriteURIForGET_fails _ _ sv e Hfail). }
  split; [exact Hlink|]. split; [|split].
  - unfold execute. now rewrite Hlink.
  - intros chosenURI body. unfold variablesFail.
    split_body body; intros (v' & Hv & Hf); cbn in *; simplify_eq; congruence.
  - intros chosenURI body. unfold extensionsFail, serializesTo.
    split_body body;
      (intros (Hsv & x' & Hx & Hf); cbn in *;
       try destruct Hsv as (s' & Hs & ->); simplify_eq; cbn; congruence).
Qed.

(** C4: when the transport promise is fulfilled with a result whose [data]
    is [d], the one request is followed by exactly [Next(d)] and then
    [Complete]. *)
Theorem fulfilled_emits_next_then_complete linkOptions transport operation req
    (result d : JsValue) :
  createHttpLink linkOptions operation = newObservable req ->
  transport req = Fulfilled result ->
  getProp result "data" = Some d ->
  execute linkOptions transport operation
  = {| requests := [req]; emitted := [Next d; Complete] |}.
Proof.
  intros Hreq Hsettle Hdata.
  rewrite (execute_newObservable _ _ _ _ Hreq), Hsettle.
  unfold settle, onFulfilled. now rewrite Hdata.
Qed.

(** C5, as the code has it: when the promise is rejected with an error
    whose name is not [AbortError] and whose [result] holds truthy [errors]
    and [data], the stream is exactly [Next(err.result)] followed by
    [Error(err)]. *)
Theorem rejection_with_result_emits_next_then_error linkOptions transport operation req
    (err r es d : JsValue) :
  createHttpLink linkOptions operation = newObservable req ->
  transport req = Rejected err ->
  getProp err "name" <> Some (JsString "AbortError") ->
  getProp err "result" = Some r ->
  getProp r "errors" = Some es -> truthy es = true ->
  getProp r "data" = Some d -> truthy d = true ->
  emitted (execute linkOptions transport operation) = [Next r; Error (Reason err)].
Proof.
  intros Hreq Hsettle Hname Hr Hes Tes Hd Td.
  rewrite (execute_newObservable _ _ _ _ Hreq), Hsettle. cbn [emitted settle].
  assert (Tr : truthy r = true).
  { destruct r; cbn in Hes; simplify_eq; try discriminate; reflexivity. }
  unfold onRejected, carriesResult.
  destruct (getProp err "name") as [n|] eqn:En.
  - destruct (strict_eq_str n "AbortError") eqn:Eabort.
    + destruct n; try discriminate. cbn in Eabort.
      apply String.eqb_eq in Eabort. subst. contradiction.
    + rewrite Hr, Hes, Hd. cbn [default id]. now rewrite Tr, Tes, Td.
  - destruct err; discriminate.
Qed.

(** C6: when the promise is rejected with an error named [AbortError],
    nothing is told to the observer. *)
Theorem abort_emits_nothing linkOptions transport operation req (err : JsValue) :
  createHttpLink linkOptions operation = newObservable req ->
  transport req = Rejected err ->
  getProp err "name" = Some (JsString "AbortError") ->
  emitted (execute linkOptions transport operation) = [].
Proof.
  intros Hreq Hsettle Hname.
  rewrite (execute_newObservable _ _ _ _ Hreq), Hsettle. cbn [emitted settle].
  unfold onRejected. now rewrite Hname.
Qed.

(** C8, as the code has it: when the context has a [clientAwareness] whose
    name and version are not empty, and the merge lets the context layer's
    headers prevail, the request carries [apollographql-client-name] and
    [apollographql-client-version] with those values, unless
    [context.headers] has the same key, whose value is then sent instead. *)
Theorem clientAwareness_headers_are_sent linkOptions operation req
    (ca : ClientAwareness) (n v : string) :
  contextHeadersPrevail ->
  createHttpLink linkOptions operation = newObservable req ->
  clientAwareness (getContext operation) = Some ca ->
  name ca = Some n -> n <> "" ->
  version ca = Some v -> v <> "" ->
  req_headers req !! "apollographql-client-name"
  = Some (default n (props_of (ctx_headers (getContext operation))
                       !! "apollographql-client-name"))
  /\ req_headers req !! "apollographql-client-version"
     = Some (default v (props_of (ctx_headers (getContext operation))
                          !! "apollographql-client-version")).
Proof.
  intros Hprevail Hreq Hca Hn Hn0 Hv Hv0.
  apply createHttpLink_request in Hreq as [_ ->].
  apply String.eqb_neq in Hn0, Hv0.
  assert (Hctx : forall k x,
             contextHeaders (getContext operation) !! k = Some x ->
             k <> "Content-Type" ->
             (<["Content-Type" := "application/json"]>
                (opt_headers (chosenOptions linkOptions operation))) !! k = Some x).
  { intros k x Hk Hne. rewrite lookup_insert_ne by congruence.
    assert (Hm : opt_headers (fst (merged linkOptions operation)) !! k = Some x)
      by (apply Hprevail; exact Hk).
    unfold chosenOptions. now destruct (forcesGET _ _). }
  assert (Hca_name : clientAwarenessHeaders (getContext operation)
                      !! "apollographql-client-name" = Some n).
  { unfold clientAwarenessHeaders. rewrite Hca, Hn, Hv. cbn [truthy].
    rewrite Hn0, Hv0. cbn [negb].
    now rewrite lookup_insert_ne, lookup_insert_eq by discriminate. }
  assert (Hca_version : clientAwarenessHeaders (getContext operation)
                         !! "apollographql-client-version" = Some v).
  { unfold clientAwarenessHeaders. rewrite Hca, Hn, Hv. cbn [truthy].
    rewrite Hn0, Hv0. cbn [negb]. apply lookup_insert_eq. }
  split; (apply Hctx; [|discriminate]);
    unfold contextHeaders, spread; rewrite lookup_union;
    rewrite ?Hca_name, ?Hca_version;
    destruct (props_of (ctx_headers (getContext operation)) !! _); reflexivity.
Qed.

(** C9: one subscription calls [Http.request] at most once, and which
    calls are made does not depend on how the transport settles. *)
Theorem at_most_one_transport_call linkOptions transport operation :
  (length (requests (execute linkOptions transport operation)) <= 1)%nat
  /\ forall transport',
      requests (execute linkOptions transport' operation)
      = requests (execute linkOptions transport operation).
Proof.
  unfold execute, subscribe.
  destruct (createHttpLink linkOptions operation); cbn; split; auto.
Qed.

(** C10: every request handed to [Http.request] binds the key
    [Content-Type] to [application/json], whatever the method and whatever
    the layers of configuration supplied under that key. *)
Theorem content_type_is_forced linkOptions transport operation req :
  In req (requests (execute linkOptions transport operation)) ->
  req_headers req !! "Content-Type" = Some "application/json".
Proof.
  intros Hin. apply requests_execute in Hin.
  apply createHttpLink_request in Hin as [_ ->].
  apply lookup_insert_eq.
Qed.

End Claims.

(** ** Concrete runs on the model of the imported functions *)

(** A document with a query and a fragment, under [useGETForQueries]. *)
Lemma useGETForQueries_forces_GET_without_mutation_witness :
  useGETForQueries getLink = Some true
  /\ ~ In (OperationDefinition mutation) (definitions (op_query queryOperation))
  /\ method (@chosenOptions apollo_link_http_common getLink queryOperation)
     = JsString "GET".
Proof.
  assert (Hno : ~ In (OperationDefinition mutation)
                  (definitions (op_query queryOperation))).
  { cbn. intros [Hd | [Hd | []]]; discriminate. }
  split; [reflexivity|]. split; [exact Hno|].
  exact (proj1 (proj2 (@useGETForQueries_forces_GET_without_mutation
                         apollo_link_http_common getLink queryOperation eq_refl)) Hno).
Defined.

(** With a mutation among the definitions the merged method, POST, stays. *)
Example mutation_keeps_merged_method :
  forcesGET getLink mutationOperation = false
  /\ method (@chosenOptions apollo_link_http_common getLink mutationOperation)
     = JsString "POST".
Proof. split; reflexivity. Qed.

(** A BigInt among the variables: the transport, which would have
    answered, is never asked. *)
Lemma serialization_failure_issues_no_request_witness :
  method (@chosenOptions apollo_link_http_common getLink bigintOperation) = JsString "GET"
  /\ @variablesFail apollo_link_http_common
       (snd (@merged apollo_link_http_common getLink bigintOperation)) bigintError
  /\ @execute apollo_link_http_common getLink (fun _ => Fulfilled fooResult)
       bigintOperation
     = {| requests := []; emitted := [Error (ParseError bigintError)] |}.
Proof.
  assert (Hfail : @variablesFail apollo_link_http_common
                    (snd (@merged apollo_link_http_common getLink bigintOperation))
                    bigintError).
  { exists [("x", JsBigInt 1)]. split; reflexivity. }
  split; [reflexivity|]. split; [exact Hfail|].
  exact (proj1 (proj2 (@serialization_failure_issues_no_request
                         apollo_link_http_common getLink (fun _ => Fulfilled fooResult)
                         bigintOperation None bigintError eq_refl (or_introl Hfail)))).
Defined.

(** The transport answers [{data: {foo: 1}}]. *)
Lemma fulfilled_emits_next_then_complete_witness :
  exists req,
    @createHttpLink apollo_link_http_common getLink queryOperation = newObservable req
    /\ url req = "/graphql?query=%7Ba%7D&variables=%7B%22x%22%3A1%7D"
    /\ @execute apollo_link_http_common getLink (fun _ => Fulfilled fooResult)
         queryOperation
       = {| requests := [req];
            emitted := [Next (JsObject [("foo", JsNumber 1)]); Complete] |}.
Proof.
  eexists. split; [reflexivity|]. split; [reflexivity|].
  eapply (@fulfilled_emits_next_then_complete apollo_link_http_common getLink
           (fun _ => Fulfilled fooResult) queryOperation _ fooResult);
    reflexivity.
Defined.

(** The transport rejects with an error that carries errors and data. *)
Lemma rejection_with_result_emits_next_then_error_witness :
  exists req,
    @createHttpLink apollo_link_http_common plainLink queryOperation = newObservable req
    /\ emitted (@execute apollo_link_http_common plainLink
                  (fun _ => Rejected (errorObject "Error" partialResult)) queryOperation)
       = [Next partialResult; Error (Reason (errorObject "Error" partialResult))].
Proof.
  eexists. split; [reflexivity|].
  eapply (@rejection_with_result_emits_next_then_error apollo_link_http_common plainLink
           (fun _ => Rejected (errorObject "Error" partialResult)) queryOperation _
           (errorObject "Error" partialResult) partialResult
           (JsArray [JsObject [("message", JsString "boom")]])
           (JsObject [("foo", JsNumber 1)]));
    try reflexivity.
  cbn. intros [=].
Defined.

(** C5 as stated fails: an error named [AbortError] that carries a result
    with both [errors] and [data] produces no notification at all. *)
Lemma abort_error_with_result_emits_nothing :
  getProp (errorObject "AbortError" partialResult) "result" = Some partialResult
  /\ truthy (lookup_prop "errors" [("errors", JsArray []); ("data", JsObject [])]) = true
  /\ carriesResult (errorObject "AbortError" partialResult) = true
  /\ emitted (@execute apollo_link_http_common plainLink
                (fun _ => Rejected (errorObject "AbortError" partialResult))
                queryOperation)
     = [].
Proof. repeat split. Qed.

(** The transport rejects with a bare [AbortError]. *)
Lemma abort_emits_nothing_witness :
  exists req,
    @createHttpLink apollo_link_http_common plainLink queryOperation = newObservable req
    /\ emitted (@execute apollo_link_http_common plainLink
                  (fun _ => Rejected (errorObject "AbortError" JsUndefined))
                  queryOperation)
       = [].
Proof.
  eexists. split; [reflexivity|].
  eapply (@abort_emits_nothing apollo_link_http_common plainLink
           (fun _ => Rejected (errorObject "AbortError" JsUndefined)) queryOperation _
           (errorObject "AbortError" JsUndefined));
    reflexivity.
Defined.

(** Name [app], version [1.0], and a context header that overrides the
    name. *)
Lemma clientAwareness_headers_are_sent_witness :
  exists req,
    @createHttpLink apollo_link_http_common plainLink awareOperation = newObservable req
    /\ req_headers req !! "apollographql-client-name" = Some "override"
    /\ req_headers req !! "apollographql-client-version" = Some "1.0".
Proof.
  eexists. split; [reflexivity|].
  eapply (@clientAwareness_headers_are_sent apollo_link_http_common plainLink
           awareOperation _ {| name := Some "app"; version := Some "1.0" |} "app" "1.0"
           model_contextHeadersPrevail);
    try reflexivity; discriminate.
Defined.

(** C8 as stated fails: a [clientAwareness] with the empty string as its
    name has a name, yet no [apollographql-client-name] header is sent. *)
Lemma empty_clientAwareness_name_sends_no_header :
  clientAwareness (getContext namelessOperation)
  = Some {| name := Some ""; version := Some "1.0" |}
  /\ contextHeaders (getContext namelessOperation) !! "apollographql-client-name" = None
  /\ exists req,
      @createHttpLink apollo_link_http_common plainLink namelessOperation
      = newObservable req
      /\ req_headers req !! "apollographql-client-name" = None
      /\ req_headers req !! "apollographql-client-version" = Some "1.0".
Proof.
  split; [reflexivity|]. split; [reflexivity|].
  eexists. split; [reflexivity|]. split; reflexivity.
Qed.

(** The link says [text/plain], the context [text/html]; the request says
    [application/json]. *)
Lemma content_type_is_forced_witness :
  exists req,
    In req (requests (@execute apollo_link_http_common typedLink (fun _ => Pending)
                        typedOperation))
    /\ opt_headers (@chosenOptions apollo_link_http_common typedLink typedOperation)
       !! "Content-Type" = Some "text/html"
    /\ req_headers req !! "Content-Type" = Some "application/json".
Proof.
  eexists. split; [left; reflexivity|]. split; [reflexivity|].
  apply (@content_type_is_forced apollo_link_http_common typedLink (fun _ => Pending)
           typedOperation).
  left. reflexivity.
Defined.

(** Keys are compared as they are written: a [content-type] in lower case
    travels beside the forced [Content-Type]. *)
Example lower_case_content_type_is_kept :
  exists req,
    @createHttpLink apollo_link_http_common lowerCaseLink queryOperation
    = newObservable req
    /\ req_headers req !! "content-type" = Some "text/plain"
    /\ req_headers req !! "Content-Type" = Some "application/json".
Proof. eexists. repeat split. Qed.

(** ** Further properties: strings *)

Lemma length_append (a b : string) :
  String.length (a ++ b) = (String.length a + String.length b)%nat.
Proof.
  induction a as [|x a IH]; [reflexivity|].
  rewrite append_cons. cbn [String.length]. now rewrite IH.
Qed.

Lemma indexOf_app_None (c : ascii) (a b : string) :
  indexOf c a = None ->
  indexOf c (a ++ b)
  = match indexOf c b with
    | Some n => Some (String.length a + n)%nat
    | None => None
    end.
Proof.
  induction a as [|x a IH]; intros Ha.
  - change (EmptyString ++ b) with b. now destruct (indexOf c b).
  - rewrite append_cons. cbn [indexOf String.length] in *.
    destruct (Ascii.eqb x c); [discriminate|].
    destruct (indexOf c a); [discriminate|].
    rewrite (IH eq_refl). now destruct (indexOf c b).
Qed.

Lemma indexOf_app_Some (c : ascii) (a b : string) (n : nat) :
  indexOf c a = Some n -> indexOf c (a ++ b) = Some n.
Proof.
  revert n. induction a as [|x a IH]; intros n Ha; [discriminate|].
  rewrite append_cons. cbn [indexOf] in *.
  destruct (Ascii.eqb x c); [exact Ha|].
  destruct (indexOf c a) as [m|]; [|discriminate].
  now rewrite (IH m eq_refl).
Qed.

Lemma substr_from_app (a b : string) : substr_from (String.length a) (a ++ b) = b.
Proof. induction a as [|x a IH]; [reflexivity|]. rewrite append_cons. exact IH. Qed.

Lemma substr_to_app (a b : string) : substr_to (String.length a) (a ++ b) = a.
Proof.
  induction a as [|x a IH]; [now destruct b|].
  rewrite append_cons. cbn [String.length substr_to]. now rewrite IH.
Qed.

(** A URI is its two pieces, and the first holds no [#]. *)
Lemma cut_at_fragment (u : string) :
  u = preFragmentOf u ++ fragmentOf u
  /\ indexOf "#" (preFragmentOf u) = None
  /\ (fragmentOf u = EmptyString \/ exists rest, fragmentOf u = String "#" rest).
Proof.
  unfold preFragmentOf, fragmentOf.
  destruct (indexOf "#" u) as [n|] eqn:Hu.
  - destruct (indexOf_split _ _ _ Hu) as (Hs & Hpre & Hfrag). auto.
  - rewrite append_nil_r. auto.
Qed.

(** Cutting [pre ++ frag] when [pre] holds no [#] and [frag] is empty or
    starts with one gives the two pieces back. *)
Lemma cut_of_pieces (pre frag : string) :
  indexOf "#" pre = None ->
  (frag = EmptyString \/ exists rest, frag = String "#" rest) ->
  preFragmentOf (pre ++ frag) = pre /\ fragmentOf (pre ++ frag) = frag.
Proof.
  intros Hpre [-> | (rest & ->)]; unfold preFragmentOf, fragmentOf;
    rewrite (indexOf_app_None _ _ _ Hpre); cbn [indexOf].
  - now rewrite append_nil_r.
  - rewrite Ascii.eqb_refl, Nat.add_0_r.
    now rewrite substr_to_app, substr_from_app.
Qed.

Lemma reconstructURI_pieces (chosenURI : string) (params : list string) :
  reconstructURI chosenURI params
  = preFragmentOf chosenURI
    ++ (prefixFor (preFragmentOf chosenURI) ++ join "&" params)
    ++ fragmentOf chosenURI.
Proof.
  unfold reconstructURI, preFragmentOf, fragmentOf, prefixFor.
  destruct (indexOf "#" chosenURI); now rewrite !append_assoc.
Qed.

Lemma hex_digit_unreserved (n : nat) : (n < 16)%nat -> uri_unreserved (hex_digit n) = true.
Proof.
  intros Hn. do 16 (destruct n as [|n]; [reflexivity|]). lia.
Qed.

Lemma unreserved_differs (a c : ascii) :
  uri_unreserved a = true -> uri_unreserved c = false -> Ascii.eqb a c = false.
Proof.
  intros Ha Hc. destruct (Ascii.eqb a c) eqn:E; [|reflexivity].
  apply Ascii.eqb_eq in E. congruence.
Qed.

(** A character that is neither unreserved nor [%] does not occur in what
    [encodeURIComponent] returns. *)
Lemma encodeURIComponent_avoids (c : ascii) (s : string) :
  uri_unreserved c = false -> c <> "%"%char ->
  indexOf c (encodeURIComponent s) = None.
Proof.
  intros Hc Hpercent. induction s as [|a s IH]; [reflexivity|].
  cbn [encodeURIComponent]. rewrite indexOf_app_None; [now rewrite IH|].
  destruct (uri_unreserved a) eqn:Ha.
  - cbn [indexOf]. now rewrite (unreserved_differs a c Ha Hc).
  - unfold percent_encode. cbn [indexOf].
    assert (Hbound : (nat_of_ascii a < 256)%nat) by apply nat_ascii_bounded.
    assert (Hhi : uri_unreserved (hex_digit (nat_of_ascii a / 16)) = true).
    { apply hex_digit_unreserved. apply Nat.Div0.div_lt_upper_bound. lia. }
    assert (Hlo : uri_unreserved (hex_digit (nat_of_ascii a mod 16)) = true).
    { apply hex_digit_unreserved. apply Nat.mod_upper_bound. lia. }
    rewrite (unreserved_differs _ c Hhi Hc), (unreserved_differs _ c Hlo Hc).
    destruct (Ascii.eqb "%" c) eqn:E; [|reflexivity].
    apply Ascii.eqb_eq in E. congruence.
Qed.

Lemma join_avoids (c : ascii) (sep : string) (l : list string) :
  indexOf c sep = None ->
  Forall (fun p => indexOf c p = None) l ->
  indexOf c (join sep l) = None.
Proof.
  intros Hsep Hl. induction Hl as [|p l Hp Hl IH]; [reflexivity|].
  destruct l as [|p' l]; [exact Hp|].
  change (join sep (p :: p' :: l)) with (p ++ sep ++ join sep (p' :: l)).
  rewrite (indexOf_app_None _ _ _ Hp), (indexOf_app_None _ _ _ Hsep).
  now rewrite IH.
Qed.

(** No parameter holds a character that [encodeURIComponent] escapes,
    whatever key (of letters) and value it was built from. *)
Lemma param_avoids (c : ascii) (key : string) (value : option string) :
  encodeURIComponent key = key ->
  uri_unreserved c = false -> c <> "%"%char -> c <> "="%char ->
  Forall (fun p => indexOf c p = None) (param key value).
Proof.
  intros Hkey Hc Hpercent Heq. destruct value as [v|]; constructor; [|constructor].
  rewrite <- Hkey.
  rewrite (indexOf_app_None _ _ _ (encodeURIComponent_avoids c key Hc Hpercent)).
  assert (Hsep : indexOf c "=" = None).
  { cbn [indexOf]. destruct (Ascii.eqb "=" c) eqn:E; [|reflexivity].
    apply Ascii.eqb_eq in E. congruence. }
  rewrite (indexOf_app_None _ _ _ Hsep).
  now rewrite (encodeURIComponent_avoids c v Hc Hpercent).
Qed.

(** ** Further properties: GET serialization *)

Lemma pair_avoids (c : ascii) (key v : string) :
  encodeURIComponent key = key ->
  uri_unreserved c = false -> c <> "%"%char -> c <> "="%char ->
  indexOf c (key ++ "=" ++ encodeURIComponent v) = None.
Proof.
  intros Hkey Hc Hpercent Heq.
  pose proof (param_avoids c key (Some v) Hkey Hc Hpercent Heq) as Hp.
  now inversion Hp.
Qed.

(** The URI rebuilt from parameters without [#] is cut where the base URI
    was. *)
Lemma reconstructURI_cut (chosenURI : string) (params : list string) :
  Forall (fun p => indexOf "#" p = None) params ->
  preFragmentOf (reconstructURI chosenURI params)
  = preFragmentOf chosenURI ++ prefixFor (preFragmentOf chosenURI) ++ join "&" params
  /\ fragmentOf (reconstructURI chosenURI params) = fragmentOf chosenURI.
Proof.
  intros Hparams.
  destruct (cut_at_fragment chosenURI) as (_ & Hpre & Hfrag).
  rewrite reconstructURI_pieces, <- append_assoc.
  apply cut_of_pieces; [|exact Hfrag].
  rewrite (indexOf_app_None _ _ _ Hpre).
  assert (Hsep : indexOf "#" (prefixFor (preFragmentOf chosenURI)) = None).
  { unfold prefixFor. now destruct (indexOf "?" _). }
  rewrite (indexOf_app_None _ _ _ Hsep).
  now rewrite (join_avoids "#" "&" params eq_refl Hparams).
Qed.

(** Once a parameter block has been added, the next one is added with
    [&]. *)
Lemma prefixFor_after (pre rest : string) :
  prefixFor (pre ++ prefixFor pre ++ rest) = "&".
Proof.
  unfold prefixFor at 1.
  destruct (indexOf "?" pre) as [n|] eqn:Hpre.
  - now rewrite (indexOf_app_Some _ _ _ _ Hpre).
  - rewrite (indexOf_app_None _ _ _ Hpre). unfold prefixFor. rewrite Hpre.
    change ("?" ++ rest) with (String "?" rest). cbn [indexOf].
    now rewrite Ascii.eqb_refl.
Qed.

Section MoreSerialization.
Context `{HttpCommon}.

Lemma queryParams_avoid (c : ascii) (chosenURI : string) (body : Body) :
  uri_unreserved c = false -> c <> "%"%char -> c <> "="%char ->
  Forall (fun p => indexOf c p = None)
    (queryParams (fst (rewriteURIForGET_run chosenURI body))).
Proof.
  intros Hc Hpercent Heq.
  split_body body; repeat constructor; now apply pair_avoids.
Qed.

Lemma queryParams_any_URI (u1 u2 : string) (body : Body) :
  fst (rewriteURIForGET_run u1 body) = fst (rewriteURIForGET_run u2 body).
Proof. split_body body; reflexivity. Qed.

(** An error that comes back is one a serialization threw. *)
Lemma rewriteURIForGET_thrown (chosenURI : string) (body : Body)
    (e : ClientParseError) :
  rewriteURIForGET chosenURI body = inl e ->
  variablesFail body e \/ exists sv, extensionsFail body sv e.
Proof.
  split_body body; intros Hr; try discriminate; injection Hr as <-;
    unfold variablesFail, extensionsFail, serializesTo;
    cbn [variables extensions];
    first [ left; eexists; split; [reflexivity | eassumption]
          | right; eexists; split;
            [ first [ reflexivity | eexists; split; [eassumption | reflexivity] ]
            | eexists; split; [reflexivity | eassumption] ] ].
Qed.

(** X1: the rewritten URI is cut at the same place as the base URI: its
    fragment is the fragment of the base URI, and what comes before it is
    the old text before the fragment, the prefix, and the parameters joined
    with [&].  No parameter can open a fragment of its own. *)
Theorem rewriteURIForGET_keeps_the_cut (chosenURI : string) (body : Body)
    (newURI : string) :
  rewriteURIForGET chosenURI body = inr newURI ->
  fragmentOf newURI = fragmentOf chosenURI
  /\ preFragmentOf newURI
     = preFragmentOf chosenURI ++ prefixFor (preFragmentOf chosenURI)
       ++ join "&" (queryParams (fst (rewriteURIForGET_run chosenURI body))).
Proof.
  intros Hget. apply rewriteURIForGET_newURI in Hget. subst newURI.
  destruct (reconstructURI_cut chosenURI
              (queryParams (fst (rewriteURIForGET_run chosenURI body)))) as [Hpre Hfrag].
  - apply queryParams_avoid; [reflexivity | discriminate | discriminate].
  - split; assumption.
Qed.

(** X2: rewriting a URI that was already rewritten appends the second
    block after an [&]: the result is the old text before the fragment, one
    prefix, the first parameters, [&], the second parameters, and the
    fragment of the base URI. *)
Theorem rewriteURIForGET_twice (chosenURI : string) (body1 body2 : Body)
    (uri1 uri2 : string) :
  rewriteURIForGET chosenURI body1 = inr uri1 ->
  rewriteURIForGET uri1 body2 = inr uri2 ->
  uri2 = preFragmentOf chosenURI ++ prefixFor (preFragmentOf chosenURI)
         ++ join "&" (queryParams (fst (rewriteURIForGET_run chosenURI body1)))
         ++ "&"
         ++ join "&" (queryParams (fst (rewriteURIForGET_run chosenURI body2)))
         ++ fragmentOf chosenURI.
Proof.
  intros H1 H2.
  apply rewriteURIForGET_newURI in H1, H2.
  rewrite (queryParams_any_URI uri1 chosenURI body2) in H2.
  destruct (reconstructURI_cut chosenURI
              (queryParams (fst (rewriteURIForGET_run chosenURI body1)))) as [Hpre Hfrag].
  { apply queryParams_avoid; [reflexivity | discriminate | discriminate]. }
  rewrite <- H1 in Hpre, Hfrag.
  rewrite H2, reconstructURI_pieces, Hfrag, Hpre, prefixFor_after.
  now rewrite !append_assoc.
Qed.

(** X3: the rewritten URI is the base URI grown by one prefix character
    and the joined parameters; it is never the base URI itself, even for a
    body without any parameter. *)
Theorem rewriteURIForGET_length (chosenURI : string) (body : Body) (newURI : string) :
  rewriteURIForGET chosenURI body = inr newURI ->
  String.length newURI
  = (String.length chosenURI + 1
     + String.length (join "&" (queryParams (fst (rewriteURIForGET_run chosenURI body)))))%nat
  /\ newURI <> chosenURI.
Proof.
  intros Hget. apply rewriteURIForGET_newURI in Hget.
  assert (Hlen : String.length newURI
                 = (String.length chosenURI + 1
                    + String.length
                        (join "&" (queryParams
                                     (fst (rewriteURIForGET_run chosenURI body)))))%nat).
  { destruct (cut_at_fragment chosenURI) as (Hcut & _ & _).
    apply (f_equal String.length) in Hcut. rewrite length_append in Hcut.
    assert (Hsep : String.length (prefixFor (preFragmentOf chosenURI)) = 1%nat).
    { unfold prefixFor. now destruct (indexOf "?" _). }
    rewrite Hget, reconstructURI_pieces, !length_append, Hsep. lia. }
  split; [exact Hlen|]. intros ->. lia.
Qed.


(** X5: unless the variables throw, every field that is present is handed
    to the serializer exactly once, the variables before the extensions,
    and a field that is absent never is. *)
Theorem rewriteURIForGET_serializes_in_order (chosenURI : string) (body : Body) :
  (forall e, ~ variablesFail body e) ->
  serialized (fst (rewriteURIForGET_run chosenURI body))
  = (labelOf "Variables map" (variables body)
     ++ labelOf "Extensions map" (extensions body))%list.
Proof.
  unfold variablesFail.
  split_body body; intros Hno; try reflexivity;
    (exfalso; eapply Hno; eexists; split; [reflexivity | eassumption]).
Qed.

(** X6: the parameters built, and whether an error is returned, do not
    depend on the base URI: a parameter of the same name already in the
    URI is not looked for. *)
Theorem rewriteURIForGET_ignores_base (uri1 uri2 : string) (body : Body) :
  fst (rewriteURIForGET_run uri1 body) = fst (rewriteURIForGET_run uri2 body)
  /\ forall e,
      rewriteURIForGET uri1 body = inl e <-> rewriteURIForGET uri2 body = inl e.
Proof.
  split; [apply queryParams_any_URI|].
  intros e. split_body body; (split; congruence).
Qed.

End MoreSerialization.

(** ** Further properties: the handler *)

Lemma strict_eq_str_true (m : JsValue) (s : string) :
  strict_eq_str m s = true <-> m = JsString s.
Proof.
  destruct m; cbn; try (split; [discriminate | intros [=]]).
  rewrite String.eqb_eq. split; [now intros -> | now intros [= ->]].
Qed.

(** A TypeError thrown inside the then-handler is reported as any other
    failure. *)
Lemma onRejected_TypeError (msg : string) :
  onRejected (TypeError msg) = [Error (Reason (TypeError msg))].
Proof. reflexivity. Qed.

Section MoreHandler.
Context `{HttpCommon}.
Implicit Types (linkOptions : Options) (operation : Operation)
  (transport : HttpRequest -> Settlement) (req : HttpRequest).

Lemma chosenOptions_headers linkOptions operation :
  opt_headers (chosenOptions linkOptions operation)
  = opt_headers (fst (merged linkOptions operation))
  /\ opt_body (chosenOptions linkOptions operation)
     = opt_body (fst (merged linkOptions operation)).
Proof. unfold chosenOptions. now destruct (forcesGET _ _). Qed.

(** X7: the handler returns [fromError(e)] only on the GET branch, and
    only with an error that serializing the variables or the extensions
    threw; a request with any other method is always issued. *)
Theorem fromError_only_from_GET linkOptions operation (e : ClientParseError) :
  createHttpLink linkOptions operation = fromError e ->
  method (chosenOptions linkOptions operation) = JsString "GET"
  /\ (variablesFail (snd (merged linkOptions operation)) e
      \/ exists sv, extensionsFail (snd (merged linkOptions operation)) sv e).
Proof.
  unfold createHttpLink.
  destruct (strict_eq_str _ _) eqn:Hget; [|discriminate].
  apply strict_eq_str_true in Hget.
  destruct (rewriteURIForGET _ _) as [e'|u] eqn:Hrewrite; [|discriminate].
  intros [= <-]. split; [exact Hget|].
  now apply rewriteURIForGET_thrown in Hrewrite.
Qed.

(** X8: the operation body reaches the transport one way only.  With a
    method that is not exactly [GET] (a lower-case [get], or none at all)
    the request goes to the selected URI as it stands and carries the body
    as [data]; on the GET branch the URI carries the parameters and [data]
    is whatever the merged options held, not the body. *)
Theorem body_travels_one_way linkOptions operation :
  (method (chosenOptions linkOptions operation) <> JsString "GET" ->
   createHttpLink linkOptions operation
   = newObservable
       {| url := selectURI operation (default (UriString "/graphql") (uri linkOptions));
          req_method := method (chosenOptions linkOptions operation);
          data := OfBody (snd (merged linkOptions operation));
          req_headers := <["Content-Type" := "application/json"]>
                           (opt_headers (fst (merged linkOptions operation))) |})
  /\ (forall req,
        method (chosenOptions linkOptions operation) = JsString "GET" ->
        createHttpLink linkOptions operation = newObservable req ->
        data req = opt_body (fst (merged linkOptions operation))
        /\ url req
           = reconstructURI
               (selectURI operation (default (UriString "/graphql") (uri linkOptions)))
               (queryParams
                  (fst (rewriteURIForGET_run
                          (selectURI operation
                             (default (UriString "/graphql") (uri linkOptions)))
                          (snd (merged linkOptions operation)))))).
Proof.
  destruct (chosenOptions_headers linkOptions operation) as [Hh Hb].
  split.
  - intros Hne. unfold createHttpLink.
    destruct (strict_eq_str _ _) eqn:Hget.
    + apply strict_eq_str_true in Hget. contradiction.
    + unfold httpRequest, set_body. cbn. now rewrite Hh.
  - intros req Hget. unfold createHttpLink. rewrite Hget.
    change (strict_eq_str (JsString "GET") "GET") with true. cbn iota.
    destruct (rewriteURIForGET _ _) as [e|u] eqn:Hrewrite; [discriminate|].
    intros [= <-]. cbn [data url httpRequest].
    split; [exact Hb|]. now apply rewriteURIForGET_newURI.
Qed.

(** X9: apart from [Content-Type], the request carries exactly the headers
    the merge produced: forcing GET and attaching the body add, drop and
    change none. *)
Theorem other_headers_pass_through linkOptions transport operation req (k : string) :
  In req (requests (execute linkOptions transport operation)) ->
  k <> "Content-Type" ->
  req_headers req !! k = opt_headers (fst (merged linkOptions operation)) !! k.
Proof.
  intros Hin Hk. apply requests_execute in Hin.
  apply createHttpLink_request in Hin as [_ ->].
  rewrite lookup_insert_ne by congruence.
  now rewrite (proj1 (chosenOptions_headers linkOptions operation)).
Qed.

(** X10: when [useGETForQueries] is absent or false the method is never
    touched, not even for a document of queries only: every request carries
    the method the merge produced. *)
Theorem without_useGETForQueries_method_is_kept linkOptions operation :
  useGETForQueries linkOptions <> Some true ->
  chosenOptions linkOptions operation = fst (merged linkOptions operation)
  /\ forall req,
      createHttpLink linkOptions operation = newObservable req ->
      req_method req = method (fst (merged linkOptions operation)).
Proof.
  intros Huse.
  assert (Hchosen : chosenOptions linkOptions operation
                    = fst (merged linkOptions operation)).
  { unfold chosenOptions, forcesGET.
    destruct (useGETForQueries linkOptions) as [[|]|]; [contradiction| |]; reflexivity. }
  split; [exact Hchosen|].
  intros req Hreq. apply createHttpLink_request in Hreq as [-> _]. now rewrite Hchosen.
Qed.

Lemma clientAwarenessHeaders_lookup (context : Context) (k v : string) :
  clientAwarenessHeaders context !! k = Some v ->
  v <> ""
  /\ exists ca,
      clientAwareness context = Some ca
      /\ ((k = "apollographql-client-name" /\ name ca = Some v)
          \/ (k = "apollographql-client-version" /\ version ca = Some v)).
Proof.
  unfold clientAwarenessHeaders.
  destruct (clientAwareness context) as [[n ver]|]; cbn [name version truthy];
    [|now rewrite lookup_empty].
  intros Hk.
  assert (Hcases :
            (k = "apollographql-client-name" /\ n = Some v /\ String.eqb v "" = false)
            \/ (k = "apollographql-client-version" /\ ver = Some v
                /\ String.eqb v "" = false)).
  { destruct n as [n|], ver as [ver|];
      try destruct (String.eqb n "") eqn:En;
      try destruct (String.eqb ver "") eqn:Ev;
      cbn [negb] in Hk;
      repeat match type of Hk with
        | <[_ := _]> _ !! _ = _ =>
            apply lookup_insert_Some in Hk as [[<- <-] | [_ Hk]]
        | ∅ !! _ = _ => now rewrite lookup_empty in Hk
        end; auto. }
  destruct Hcases as [(-> & -> & Hv) | (-> & -> & Hv)];
    apply String.eqb_neq in Hv; (split; [exact Hv|]); eexists; split; eauto.
Qed.

(** X11: the headers derived from [clientAwareness] are at most the two
    [apollographql-client-*] keys, each with the name or version it was
    given, and never with an empty value. *)
Theorem clientAwarenessHeaders_only_two (context : Context) (k v : string) :
  clientAwarenessHeaders context !! k = Some v ->
  v <> ""
  /\ exists ca,
      clientAwareness context = Some ca
      /\ ((k = "apollographql-client-name" /\ name ca = Some v)
          \/ (k = "apollographql-client-version" /\ version ca = Some v)).
Proof. apply clientAwarenessHeaders_lookup. Qed.

(** X12: in the headers of the context layer every entry of
    [context.headers] stands as given; a key other than the two
    [apollographql-client-*] ones is there only if [context.headers] has it;
    and without [clientAwareness] the layer is [context.headers] itself. *)
Theorem contextHeaders_keep_context_headers (context : Context) :
  (forall k v,
      props_of (ctx_headers context) !! k = Some v ->
      contextHeaders context !! k = Some v)
  /\ (forall k,
        k <> "apollographql-client-name" -> k <> "apollographql-client-version" ->
        contextHeaders context !! k = props_of (ctx_headers context) !! k)
  /\ (clientAwareness context = None ->
      contextHeaders context = props_of (ctx_headers context)).
Proof.
  unfold contextHeaders, spread. split; [|split].
  - intros k v Hk. now apply lookup_union_Some_l.
  - intros k Hn Hv. rewrite lookup_union.
    destruct (clientAwarenessHeaders context !! k) as [v|] eqn:Hca.
    + apply clientAwarenessHeaders_lookup in Hca
        as (_ & ca & _ & [[-> _] | [-> _]]); contradiction.
    + now destruct (props_of (ctx_headers context) !! k).
  - intros Hnone. unfold clientAwarenessHeaders. rewrite Hnone.
    apply (right_id_L ∅ (∪)).
Qed.

End MoreHandler.

(** ** Further properties: the stream *)

(** The four shapes of what a settlement tells the observer. *)
Lemma settle_cases (s : Settlement) :
  settle s = []
  \/ (exists d, settle s = [Next d; Complete])
  \/ (exists e, settle s = [Error (Reason e)])
  \/ (exists r e, settle s = [Next r; Error (Reason e)]).
Proof.
  assert (Hrej : forall err,
             onRejected err = []
             \/ (exists e, onRejected err = [Error (Reason e)])
             \/ (exists r e, onRejected err = [Next r; Error (Reason e)])).
  { intros err. unfold onRejected.
    destruct (getProp err "name") as [n|]; [|now left].
    destruct (strict_eq_str n "AbortError"); [now left|].
    destruct (carriesResult err); cbn [app]; eauto. }
  destruct s as [result|err|]; cbn [settle]; [| |now left].
  - unfold onFulfilled. destruct (getProp result "data") as [d|]; [eauto|].
    rewrite onRejected_TypeError. eauto.
  - destruct (Hrej err) as [-> | [(e & ->) | (r & e & ->)]]; eauto 6.
Qed.

Section Stream.
Context `{HttpCommon}.
Implicit Types (linkOptions : Options) (operation : Operation)
  (transport : HttpRequest -> Settlement) (req : HttpRequest).

(** X13: whatever the transport does, the observer is told at most one
    [Next] and then at most one of [Error] and [Complete], and nothing
    after either of them. *)
Theorem stream_follows_contract linkOptions transport operation :
  followsContract (emitted (execute linkOptions transport operation)) = true
  /\ (length (emitted (execute linkOptions transport operation)) <= 2)%nat
  /\ (length (filter (fun n => negb (terminal n))
                (emitted (execute linkOptions transport operation))) <= 1)%nat.
Proof.
  unfold execute, subscribe.
  destruct (createHttpLink linkOptions operation) as [e|req]; cbn [emitted].
  - cbn. auto.
  - destruct (settle_cases (transport req))
      as [-> | [(d & ->) | [(e & ->) | (r & e & ->)]]]; cbn; auto.
Qed.

(** X14: [Complete] is told exactly when a request was issued and its
    promise was fulfilled with a value whose [data] can be read. *)
Theorem complete_only_on_success linkOptions transport operation :
  In Complete (emitted (execute linkOptions transport operation))
  <-> exists req result d,
      createHttpLink linkOptions operation = newObservable req
      /\ transport req = Fulfilled result
      /\ getProp result "data" = Some d.
Proof.
  split.
  - unfold execute, subscribe.
    destruct (createHttpLink linkOptions operation) as [e|req]; cbn [emitted].
    + intros [Hin | []]. discriminate.
    + destruct (transport req) as [result|err|] eqn:Hsettle; cbn [settle].
      * unfold onFulfilled. destruct (getProp result "data") as [d|] eqn:Hd.
        -- intros _. eauto 6.
        -- rewrite onRejected_TypeError. intros [Hin | []]. discriminate.
      * intros Hin. exfalso. revert Hin. unfold onRejected.
        destruct (getProp err "name") as [n|]; [|intros []].
        destruct (strict_eq_str n "AbortError"); [intros []|].
        destruct (carriesResult err); cbn;
          intros Hin; repeat destruct Hin as [Hin | Hin]; discriminate || contradiction.
      * intros [].
  - intros (req & result & d & Hreq & Hsettle & Hd).
    rewrite (execute_newObservable _ _ _ _ Hreq), Hsettle. cbn [emitted settle].
    unfold onFulfilled. rewrite Hd. cbn. auto.
Qed.

(** X15: a rejection with any error object not named [AbortError] always
    ends the stream with [Error(err)] and never with [Complete]; when the
    error carries no result with both errors and data, that [Error] is all
    the observer is told. *)
Theorem rejection_ends_with_error linkOptions transport operation req (err n : JsValue) :
  createHttpLink linkOptions operation = newObservable req ->
  transport req = Rejected err ->
  getProp err "name" = Some n ->
  n <> JsString "AbortError" ->
  last (emitted (execute linkOptions transport operation)) = Some (Error (Reason err))
  /\ ~ In Complete (emitted (execute linkOptions transport operation))
  /\ (carriesResult err = false ->
      emitted (execute linkOptions transport operation) = [Error (Reason err)]).
Proof.
  intros Hreq Hsettle Hname Hn.
  rewrite (execute_newObservable _ _ _ _ Hreq), Hsettle. cbn [emitted settle].
  unfold onRejected. rewrite Hname.
  destruct (strict_eq_str n "AbortError") eqn:Habort.
  { apply strict_eq_str_true in Habort. contradiction. }
  destruct (carriesResult err); cbn; repeat split; try discriminate;
    intros Hin; repeat destruct Hin as [Hin | Hin]; discriminate || contradiction.
Qed.

(** X16: a promise fulfilled with [undefined] or [null] does not complete
    the stream: reading [data] throws inside the then-handler, the
    catch-handler receives that TypeError, and the observer is told
    [Error] with it. *)
Theorem fulfilled_without_result_is_an_error linkOptions transport operation req
    (result : JsValue) :
  createHttpLink linkOptions operation = newObservable req ->
  transport req = Fulfilled result ->
  result = JsUndefined \/ result = JsNull ->
  exists msg,
    emitted (execute linkOptions transport operation)
    = [Error (Reason (TypeError msg))].
Proof.
  intros Hreq Hsettle Hresult.
  rewrite (execute_newObservable _ _ _ _ Hreq), Hsettle. cbn [emitted settle].
  destruct Hresult as [-> | ->]; cbn [onFulfilled getProp];
    rewrite onRejected_TypeError; eauto.
Qed.

(** X17: a promise rejected with [undefined] or [null] leaves the stream
    silent and open: reading [name] throws inside the catch-handler before
    any observer call. *)
Theorem rejection_without_reason_is_silent linkOptions transport operation req
    (err : JsValue) :
  createHttpLink linkOptions operation = newObservable req ->
  transport req = Rejected err ->
  err = JsUndefined \/ err = JsNull ->
  emitted (execute linkOptions transport operation) = [].
Proof.
  intros Hreq Hsettle Herr.
  rewrite (execute_newObservable _ _ _ _ Hreq), Hsettle.
  now destruct Herr as [-> | ->].
Qed.


End Stream.

(** ** Further concrete runs *)

(** A query text with a [#] in it, against a base that has a query string
    and a fragment. *)
Lemma rewriteURIForGET_keeps_the_cut_witness :
  @rewriteURIForGET apollo_link_http_common "https://h/g?a=1#frag"
    (bodyOf (Some "{a#b}") None None None)
  = inr "https://h/g?a=1&query=%7Ba%23b%7D#frag"
  /\ fragmentOf "https://h/g?a=1&query=%7Ba%23b%7D#frag" = "#frag"
  /\ preFragmentOf "https://h/g?a=1&query=%7Ba%23b%7D#frag"
     = "https://h/g?a=1&query=%7Ba%23b%7D".
Proof.
  split; [reflexivity|].
  exact (@rewriteURIForGET_keeps_the_cut apollo_link_http_common
           "https://h/g?a=1#frag" (bodyOf (Some "{a#b}") None None None)
           "https://h/g?a=1&query=%7Ba%23b%7D#frag" eq_refl).
Defined.

Lemma rewriteURIForGET_twice_witness :
  @rewriteURIForGET apollo_link_http_common "/graphql#top"
    (bodyOf (Some "{a}") None None None)
  = inr "/graphql?query=%7Ba%7D#top"
  /\ @rewriteURIForGET apollo_link_http_common "/graphql?query=%7Ba%7D#top"
       (bodyOf None (Some "Q") None None)
     = inr "/graphql?query=%7Ba%7D&operationName=Q#top"
  /\ "/graphql?query=%7Ba%7D&operationName=Q#top"
     = "/graphql" ++ "?" ++ "query=%7Ba%7D" ++ "&" ++ "operationName=Q" ++ "#top".
Proof.
  split; [reflexivity|]. split; [reflexivity|].
  exact (@rewriteURIForGET_twice apollo_link_http_common "/graphql#top"
           (bodyOf (Some "{a}") None None None) (bodyOf None (Some "Q") None None)
           "/graphql?query=%7Ba%7D#top" "/graphql?query=%7Ba%7D&operationName=Q#top"
           eq_refl eq_refl).
Defined.

(** A body without any parameter still changes the URI. *)
Lemma rewriteURIForGET_length_witness :
  @rewriteURIForGET apollo_link_http_common "/graphql" (bodyOf None None None None)
  = inr "/graphql?"
  /\ String.length "/graphql?" = (8 + 1 + 0)%nat
  /\ "/graphql?" <> "/graphql".
Proof.
  split; [reflexivity|].
  exact (@rewriteURIForGET_length apollo_link_http_common "/graphql"
           (bodyOf None None None None) "/graphql?" eq_refl).
Defined.

Lemma rewriteURIForGET_serializes_in_order_witness :
  (forall e,
      ~ @variablesFail apollo_link_http_common
          (bodyOf (Some "{a}") None (Some [("x", JsNumber 1)]) (Some [])) e)
  /\ serialized (fst (@rewriteURIForGET_run apollo_link_http_common "/graphql"
                        (bodyOf (Some "{a}") None (Some [("x", JsNumber 1)]) (Some []))))
     = ["Variables map"; "Extensions map"].
Proof.
  assert (Hno : forall e,
             ~ @variablesFail apollo_link_http_common
                 (bodyOf (Some "{a}") None (Some [("x", JsNumber 1)]) (Some [])) e).
  { intros e (v & Hv & Hfail). injection Hv as <-. discriminate Hfail. }
  split; [exact Hno|].
  exact (@rewriteURIForGET_serializes_in_order apollo_link_http_common "/graphql"
           (bodyOf (Some "{a}") None (Some [("x", JsNumber 1)]) (Some [])) Hno).
Defined.

Lemma fromError_only_from_GET_witness :
  @createHttpLink apollo_link_http_common getLink bigintOperation = fromError bigintError
  /\ method (@chosenOptions apollo_link_http_common getLink bigintOperation)
     = JsString "GET"
  /\ (@variablesFail apollo_link_http_common
        (snd (@merged apollo_link_http_common getLink bigintOperation)) bigintError
      \/ exists sv,
          @extensionsFail apollo_link_http_common
            (snd (@merged apollo_link_http_common getLink bigintOperation)) sv
            bigintError).
Proof.
  split; [reflexivity|].
  exact (@fromError_only_from_GET apollo_link_http_common getLink bigintOperation
           bigintError eq_refl).
Defined.

(** A method spelled [get] takes the branch of the other methods: the URI
    is left alone and the body travels as [data]. *)
Example lower_case_get_is_not_GET :
  exists req,
    @createHttpLink apollo_link_http_common lowerGetLink queryOperation
    = newObservable req
    /\ url req = "/graphql"
    /\ req_method req = JsString "get"
    /\ data req = OfBody (bodyOf (Some "{a}") None (Some [("x", JsNumber 1)]) None).
Proof. eexists. repeat split. Qed.

Lemma other_headers_pass_through_witness :
  exists req,
    In req (requests (@execute apollo_link_http_common getLink (fun _ => Pending)
                        awareOperation))
    /\ "apollographql-client-version" <> "Content-Type"
    /\ req_headers req !! "apollographql-client-version" = Some "1.0".
Proof.
  eexists. split; [left; reflexivity|]. split; [discriminate|].
  refine (eq_trans
            (@other_headers_pass_through apollo_link_http_common getLink
               (fun _ => Pending) awareOperation _ "apollographql-client-version"
               (or_introl eq_refl) _)
            eq_refl).
  discriminate.
Defined.

Lemma without_useGETForQueries_method_is_kept_witness :
  useGETForQueries plainLink <> Some true
  /\ method (@chosenOptions apollo_link_http_common plainLink queryOperation)
     = JsString "POST".
Proof.
  assert (Hne : useGETForQueries plainLink <> Some true) by discriminate.
  split; [exact Hne|].
  exact (eq_trans
           (f_equal method
              (proj1 (@without_useGETForQueries_method_is_kept
                        apollo_link_http_common plainLink queryOperation Hne)))
           eq_refl).
Defined.

Lemma clientAwarenessHeaders_only_two_witness :
  clientAwarenessHeaders (getContext awareOperation) !! "apollographql-client-name"
  = Some "app"
  /\ "app" <> ""
  /\ exists ca,
      clientAwareness (getContext awareOperation) = Some ca
      /\ (("apollographql-client-name" = "apollographql-client-name"
           /\ name ca = Some "app")
          \/ ("apollographql-client-name" = "apollographql-client-version"
              /\ version ca = Some "app")).
Proof.
  split; [reflexivity|].
  exact (clientAwarenessHeaders_only_two (getContext awareOperation)
           "apollographql-client-name" "app" eq_refl).
Defined.

(** Errors with [data: null]: only [Error] is told. *)
Lemma rejection_ends_with_error_witness :
  exists req,
    @createHttpLink apollo_link_http_common plainLink queryOperation = newObservable req
    /\ carriesResult dataNullError = false
    /\ emitted (@execute apollo_link_http_common plainLink
                  (fun _ => Rejected dataNullError) queryOperation)
       = [Error (Reason dataNullError)].
Proof.
  eexists. split; [reflexivity|]. split; [reflexivity|].
  refine (proj2 (proj2 (@rejection_ends_with_error apollo_link_http_common plainLink
                          (fun _ => Rejected dataNullError) queryOperation _
                          dataNullError (JsString "Error") eq_refl eq_refl eq_refl _))
            eq_refl).
  discriminate.
Defined.

Lemma fulfilled_without_result_is_an_error_witness :
  exists req,
    @createHttpLink apollo_link_http_common plainLink queryOperation = newObservable req
    /\ exists msg,
        emitted (@execute apollo_link_http_common plainLink (fun _ => Fulfilled JsNull)
                   queryOperation)
        = [Error (Reason (TypeError msg))].
Proof.
  eexists. split; [reflexivity|].
  exact (@fulfilled_without_result_is_an_error apollo_link_http_common plainLink
           (fun _ => Fulfilled JsNull) queryOperation _ JsNull eq_refl eq_refl
           (or_intror eq_refl)).
Defined.

Lemma rejection_without_reason_is_silent_witness :
  exists req,
    @createHttpLink apollo_link_http_common plainLink queryOperation = newObservable req
    /\ emitted (@execute apollo_link_http_common plainLink (fun _ => Rejected JsUndefined)
                  queryOperation)
       = [].
Proof.
  eexists. split; [reflexivity|].
  exact (@rejection_without_reason_is_silent apollo_link_http_common plainLink
           (fun _ => Rejected JsUndefined) queryOperation _ JsUndefined eq_refl eq_refl
           (or_introl eq_refl)).
Defined.
